(** * Conversation core of the WhatsApp / OpenAI relay bot (wpbot.py)

    A shallow embedding of [WhatsAppOpenAIBot] and of the [/bot] webhook:
    the user directory, the per-user conversation store, the command
    directives and [process_message], with the properties of the
    specification proved (or refuted) against that embedding.

    Python text is modelled by [string] holding its UTF-8 encoding.
    [strip] removes the white space of [str.isspace], of one or of several
    bytes; [lower] folds A-Z only, which decides the comparisons with the
    directives as [str.lower] does, since no character outside ASCII has a
    lower case made of their letters.  Floating point values of the
    configuration are carried by their printed form.  What the program
    prints on standard output is left out. *)

From Stdlib Require Import Ascii String.
From stdpp Require Import gmap strings list fin_maps pretty.

Local Open Scope string_scope.
Local Open Scope list_scope.

(** ** Python string primitives used by the bot *)

Module PyStr.

Definition lower_char (c : ascii) : ascii :=
  let n := N_of_ascii c in
  if ((65 <=? n) && (n <=? 90))%N then ascii_of_N (n + 32) else c.

(** [str.lower] on the letters A-Z; the other bytes are left as they
    are. *)
Fixpoint lower (s : string) : string :=
  match s with
  | EmptyString => EmptyString
  | String c r => String (lower_char c) (lower r)
  end.

(** [str.isspace] on a character of one byte: TAB, LF, VT, FF, CR, the
    four separators FS GS RS US, and the blank. *)
Definition is_space (c : ascii) : bool :=
  let n := N_of_ascii c in
  (((9 <=? n) && (n <=? 13)) || ((28 <=? n) && (n <=? 32)))%N.

(** The other characters of [str.isspace], by their UTF-8 bytes: U+0085,
    U+00A0, U+1680, U+2000 to U+200A, U+2028, U+2029, U+202F, U+205F and
    U+3000. *)
Definition wide_spaces : list (list ascii) :=
  map (map ascii_of_nat)
    [ [194; 133]; [194; 160]; [225; 154; 128];
      [226; 128; 128]; [226; 128; 129]; [226; 128; 130]; [226; 128; 131];
      [226; 128; 132]; [226; 128; 133]; [226; 128; 134]; [226; 128; 135];
      [226; 128; 136]; [226; 128; 137]; [226; 128; 138];
      [226; 128; 168]; [226; 128; 169]; [226; 128; 175];
      [226; 129; 159]; [227; 128; 128] ].

Fixpoint starts_with (p l : list ascii) : bool :=
  match p, l with
  | [], _ => true
  | a :: p', b :: l' => Ascii.eqb a b && starts_with p' l'
  | _ :: _, [] => false
  end.

(** The number of bytes of the white-space character [l] begins with, 0
    when it begins with none; [wide] lists the characters of several
    bytes. *)
Definition space_width (wide : list (list ascii)) (l : list ascii) : nat :=
  match l with
  | [] => 0
  | c :: _ =>
      if is_space c then 1
      else match List.find (λ p, starts_with p l) wide with
           | Some p => length p
           | None => 0
           end
  end.

(** The bytes left once the leading white space is gone; [skip] counts
    the bytes of a white-space character that remain to be dropped. *)
Fixpoint skip_spaces (wide : list (list ascii)) (skip : nat) (l : list ascii)
  : list ascii :=
  match l with
  | [] => []
  | _ :: r =>
      match skip with
      | S k => skip_spaces wide k r
      | O =>
          match space_width wide l with
          | O => l
          | S k => skip_spaces wide k r
          end
      end
  end.

Definition lstrip (s : string) : string :=
  string_of_list_ascii (skip_spaces wide_spaces 0 (list_ascii_of_string s)).

(** Trailing white space: the same scan from the end, on the reversed
    bytes. *)
Definition rstrip (s : string) : string :=
  string_of_list_ascii
    (reverse (skip_spaces (map reverse wide_spaces) 0
                (reverse (list_ascii_of_string s)))).

(** [str.strip] with no argument *)
Definition strip (s : string) : string := rstrip (lstrip s).

(** [s.replace(old, new)] for a non-empty [old]: every non-overlapping
    occurrence, scanning from the left.  [skip] counts the characters of
    a matched occurrence that remain to be dropped. *)
Fixpoint replace_from (old new : string) (skip : nat) (s : string) : string :=
  match s with
  | EmptyString => EmptyString
  | String c r =>
      match skip with
      | S k => replace_from old new k r
      | O =>
          if String.prefix old s
          then new +:+ replace_from old new (String.length old - 1) r
          else String c (replace_from old new 0 r)
      end
  end.

(** The empty pattern is not used by the program; it is left alone here. *)
Definition replace (s old new : string) : string :=
  match old with
  | EmptyString => s
  | _ => replace_from old new 0 s
  end.

(** Truthiness of a value that is [None] or a string ([if x:], [not x]). *)
Definition truthy (o : option string) : bool :=
  match o with
  | Some (String _ _) => true
  | _ => false
  end.

End PyStr.

(** ** Data model *)

Inductive Role := system | user | assistant.

Record Message := { role : Role; content : string }.

(** A value of the configuration dictionary (decoded JSON). *)
Inductive Value :=
| VStr (s : string)
| VInt (z : Z)
| VFloat (repr : string)
| VNone.

(** [str(v)] as an f-string field renders it; a missing key of
    [dict.get] is [None]. *)
Definition py_str (v : option Value) : string :=
  match v with
  | Some (VStr s) => s
  | Some (VInt z) => pretty z
  | Some (VFloat r) => r
  | Some VNone | None => "None"
  end.

(** An exception, carried by its [str(e)]. *)
Inductive Exn := Exception (description : string).

Definition str_exn (e : Exn) : string := let 'Exception d := e in d.

(** The arguments of one [openai.ChatCompletion.create] call and its answer:
    [choices] holds the message of each choice. *)
Record Request := {
  req_model : Value;
  req_messages : list Message;
  req_temperature : Value;
  req_max_tokens : Value
}.

Record Response := { choices : list Message }.

(** A reference to a Python list object. *)
Abbreviation loc := nat (only parsing).

(** The mutable state the bot works on.  [conversations] maps a user to a
    reference into [heap], so that a list handed out by
    [get_conversation_history] and the list the dictionary holds are one
    object.  [requests] is the trace of the calls made to the completion
    service; [user_file] is the content last written to user_details.json. *)
Record World := {
  config : gmap string Value;
  conversations : gmap string loc;
  heap : list (list Message);
  user_details : gmap string string;
  api_key : option string;
  message_queue : list string;
  user_file : option (gmap string string);
  requests : list Request
}.

(** What one call reads from outside: the clock, the process environment
    and the answers of the external services.  [Client sid token] is
    [Some e] when the Twilio constructor raises [e]; [file_writable] tells
    whether user_details.json can be written. *)
Record Env := {
  now : string;
  TWILIO_ACCOUNT_SID : option string;
  TWILIO_AUTH_TOKEN : option string;
  Client : string → string → option Exn;
  file_writable : bool;
  ChatCompletion_create : Request → Exn + Response
}.

(** ** State and exception monad

    A raise keeps the state reached so far: what a statement mutated before
    the exception stays mutated. *)

Inductive Outcome (A : Type) :=
| Ok (a : A)
| Raise (e : Exn).
Arguments Ok {A} a.
Arguments Raise {A} e.

Definition M (A : Type) : Type := World → Outcome A * World.

Global Instance M_ret : MRet M := λ A a w, (Ok a, w).

Global Instance M_bind : MBind M := λ A B k m w,
  match m w with
  | (Ok a, w') => k a w'
  | (Raise e, w') => (Raise e, w')
  end.

Definition raise {A} (e : Exn) : M A := λ w, (Raise e, w).

Definition gets {A} (f : World → A) : M A := λ w, (Ok (f w), w).

Definition modify (f : World → World) : M unit := λ w, (Ok tt, f w).

Definition try_except {A} (body : M A) (handler : Exn → M A) : M A :=
  λ w, match body w with
       | (Ok a, w') => (Ok a, w')
       | (Raise e, w') => handler e w'
       end.

(** Field updates of [World]. *)
Definition set_conversations (c : gmap string loc) (w : World) : World :=
  {| config := config w; conversations := c; heap := heap w;
     user_details := user_details w; api_key := api_key w;
     message_queue := message_queue w; user_file := user_file w;
     requests := requests w |}.

Definition set_heap (h : list (list Message)) (w : World) : World :=
  {| config := config w; conversations := conversations w; heap := h;
     user_details := user_details w; api_key := api_key w;
     message_queue := message_queue w; user_file := user_file w;
     requests := requests w |}.

Definition set_user_details (d : gmap string string) (w : World) : World :=
  {| config := config w; conversations := conversations w; heap := heap w;
     user_details := d; api_key := api_key w;
     message_queue := message_queue w; user_file := user_file w;
     requests := requests w |}.

Definition set_message_queue (q : list string) (w : World) : World :=
  {| config := config w; conversations := conversations w; heap := heap w;
     user_details := user_details w; api_key := api_key w;
     message_queue := q; user_file := user_file w;
     requests := requests w |}.

Definition set_user_file (f : option (gmap string string)) (w : World) : World :=
  {| config := config w; conversations := conversations w; heap := heap w;
     user_details := user_details w; api_key := api_key w;
     message_queue := message_queue w; user_file := f;
     requests := requests w |}.

Definition set_requests (r : list Request) (w : World) : World :=
  {| config := config w; conversations := conversations w; heap := heap w;
     user_details := user_details w; api_key := api_key w;
     message_queue := message_queue w; user_file := user_file w;
     requests := r |}.

(** ** List objects *)

(** A new list object: [[...]] evaluated. *)
Definition new_list (items : list Message) : M loc :=
  λ w, (Ok (length (heap w)), set_heap (heap w ++ [items]) w).

(** The items of a list object.  A reference always designates an allocated
    list ([wf_world] below); the default is not reached from such a world. *)
Definition read_list (l : loc) : M (list Message) :=
  gets (λ w, default [] (heap w !! l)).

(** [l.append(m)]: the object is changed in place. *)
Definition list_append (l : loc) (m : Message) : M unit :=
  modify (λ w, set_heap (alter (λ items, items ++ [m]) l (heap w)) w).

(** [items[-n:]] for a positive [n]. *)
Definition last_n (n : nat) (items : list Message) : list Message :=
  drop (length items - n) items.

(** [self.conversations[user_id] = l] *)
Definition conversations_setitem (user_id : string) (l : loc) : M unit :=
  modify (λ w, set_conversations (<[user_id := l]> (conversations w)) w).

(** [message_queue.put(text)] *)
Definition put (text : string) : M unit :=
  modify (λ w, set_message_queue (message_queue w ++ [text]) w).

(** ** User directory *)

(** [save_user_details]: the write is attempted, a failure is printed and
    swallowed. *)
Definition save_user_details (env : Env) : M unit :=
  if file_writable env
  then modify (λ w, set_user_file (Some (user_details w)) w)
  else mret tt.

(** [Client(sid, token)] *)
Definition new_Client (env : Env) (sid token : string) : M unit :=
  match Client env sid token with
  | Some e => raise e
  | None => mret tt
  end.

Definition get_user_name (env : Env) (user_id : string) : M string :=
  details ← gets user_details;
  match details !! user_id with
  | Some name => mret name
  | None =>
      let phone := PyStr.replace user_id "whatsapp:" "" in
      let twilio_sid := TWILIO_ACCOUNT_SID env in
      let twilio_token := TWILIO_AUTH_TOKEN env in
      if PyStr.truthy twilio_sid && PyStr.truthy twilio_token
      then
        try_except
          (new_Client env (default "" twilio_sid) (default "" twilio_token);;
           let name := phone in
           modify (λ w, set_user_details (<[user_id := name]> (user_details w)) w);;
           save_user_details env;;
           mret name)
          (λ _, mret phone)
      else mret phone
  end.

(** ** Conversation store *)

Definition seed_message : Message :=
  {| role := system;
     content := "You are a helpful assistant responding via WhatsApp." |}.

Definition get_conversation_history (user_id : string) : M loc :=
  convs ← gets conversations;
  match convs !! user_id with
  | None =>
      l ← new_list [seed_message];
      conversations_setitem user_id l;;
      mret l
  | Some l => mret l
  end.

Definition clear_conversation (user_id : string) : M string :=
  convs ← gets conversations;
  match convs !! user_id with
  | Some _ =>
      l ← new_list [seed_message];
      conversations_setitem user_id l;;
      mret "Conversation history cleared. What would you like to talk about?"
  | None => mret "No conversation history found."
  end.

(** The history stored for a user, read through the reference. *)
Definition history (w : World) (user_id : string) : option (list Message) :=
  match conversations w !! user_id with
  | Some l => heap w !! l
  | None => None
  end.

(** ** Message processing *)

Definition LF : string := String (ascii_of_nat 10) EmptyString.

Definition help_text : string :=
  "WhatsApp OpenAI Bot Help:" +:+ LF +:+
  "- !clear: Clear conversation history" +:+ LF +:+
  "- !help: Show this help message" +:+ LF +:+
  "- !info: Show current bot configuration" +:+ LF +:+
  "Just type a message to chat with the AI assistant!".

Definition info_text (cfg : gmap string Value) : string :=
  "Bot Configuration:" +:+ LF +:+
  "- Model: " +:+ py_str (cfg !! "model") +:+ LF +:+
  "- Temperature: " +:+ py_str (cfg !! "temperature") +:+ LF +:+
  "- Max tokens: " +:+ py_str (cfg !! "max_tokens").

Definition api_key_warning : string :=
  "⚠️ API key not set. Please contact the administrator.".

Definition received_event (timestamp user_name user_message : string) : string :=
  "[" +:+ timestamp +:+ "] Received from " +:+ user_name +:+ ": " +:+ user_message.

Definition sent_event (timestamp user_name response : string) : string :=
  "[" +:+ timestamp +:+ "] Sent to " +:+ user_name +:+ ": " +:+ response.

Definition processing_event (timestamp user_name : string) : string :=
  "[" +:+ timestamp +:+ "] Processing request for " +:+ user_name +:+ "...".

Definition error_event (timestamp error_message : string) : string :=
  "[" +:+ timestamp +:+ "] ERROR: " +:+ error_message.

(** [openai.ChatCompletion.create(...)]: the call is recorded, then it
    answers or raises. *)
Definition create (env : Env) (req : Request) : M Response :=
  modify (λ w, set_requests (requests w ++ [req]) w);;
  match ChatCompletion_create env req with
  | inl e => raise e
  | inr r => mret r
  end.

(** [response["choices"][0]["message"]["content"]] *)
Definition first_choice_content (r : Response) : M string :=
  match choices r with
  | [] => raise (Exception "list index out of range")
  | m :: _ => mret (content m)
  end.

(** The statements of [process_message] after the command tests: the
    history is fetched, the user turn appended to it, the completion
    requested and its answer stored. *)
Definition process_chat (env : Env) (user_id user_message user_name timestamp : string)
  : M string :=
  conversation ← get_conversation_history user_id;
  list_append conversation {| role := user; content := user_message |};;
  key ← gets api_key;
  if negb (PyStr.truthy key) then
    let response := api_key_warning in
    put (sent_event timestamp user_name response);;
    mret response
  else
    put (processing_event timestamp user_name);;
    cfg ← gets config;
    messages ← read_list conversation;
    response ← create env
      {| req_model := default (VStr "gpt-3.5-turbo") (cfg !! "model");
         req_messages := messages;
         req_temperature := default (VFloat "0.7") (cfg !! "temperature");
         req_max_tokens := default (VInt 1000) (cfg !! "max_tokens") |};
    assistant_message ← first_choice_content response;
    list_append conversation {| role := assistant; content := assistant_message |};;
    items ← read_list conversation;
    (if (20 <? length items)%nat then
       match items with
       | [] => raise (Exception "list index out of range")
       | first :: _ =>
           trimmed ← new_list ([first] ++ last_n 19 items);
           conversations_setitem user_id trimmed
       end
     else mret tt);;
    put (sent_event timestamp user_name assistant_message);;
    mret assistant_message.

(** The statements of [process_message] from the first command test on;
    [user_name] and [timestamp] are bound by then. *)
Definition process_body (env : Env) (user_id user_message user_name timestamp : string)
  : M string :=
  put (received_event timestamp user_name user_message);;
  if String.eqb (PyStr.lower user_message) "!clear" then
    response ← clear_conversation user_id;
    put (sent_event timestamp user_name response);;
    mret response
  else if String.eqb (PyStr.lower user_message) "!help" then
    let response := help_text in
    put (sent_event timestamp user_name response);;
    mret response
  else if String.eqb (PyStr.lower user_message) "!info" then
    cfg ← gets config;
    let response := info_text cfg in
    put (sent_event timestamp user_name response);;
    mret response
  else
    process_chat env user_id user_message user_name timestamp.

(** The [except Exception as e] clause.  [timestamp] is [None] while the
    local is unbound: formatting the event then raises out of the handler. *)
Definition process_handler (timestamp : option string) (e : Exn) : M string :=
  let error_message := "Error: " +:+ str_exn e in
  match timestamp with
  | None =>
      raise (Exception "local variable 'timestamp' referenced before assignment")
  | Some ts =>
      put (error_event ts error_message);;
      mret ("Sorry, I encountered an error: " +:+ error_message)
  end.

Definition process_message (env : Env) (user_id user_message : string) : M string :=
  λ w,
    match get_user_name env user_id w with
    | (Raise e, w1) => process_handler None e w1
    | (Ok user_name, w1) =>
        let timestamp := now env in
        try_except
          (process_body env user_id user_message user_name timestamp)
          (process_handler (Some timestamp)) w1
    end.

(** The [/bot] route: [Body] and [From] are the form values of the request,
    absent ones default to the empty string.  The reply text is what the
    handler hands to the TwiML envelope. *)
Definition whatsapp_webhook (env : Env) (Body From : option string) : M string :=
  let incoming_msg := PyStr.strip (default "" Body) in
  let sender := default "" From in
  process_message env sender incoming_msg.

(** The bot as [__init__] leaves it: no conversation yet, the directory as
    read from user_details.json when that file exists. *)
Definition new_bot (cfg : gmap string Value) (key : option string)
    (file : option (gmap string string)) : World :=
  {| config := cfg; conversations := ∅; heap := [];
     user_details := default ∅ file; api_key := key;
     message_queue := []; user_file := file; requests := [] |}.

(** Every conversation designates an allocated list. *)
Definition wf_world (w : World) : Prop :=
  map_Forall (λ _ l, l < length (heap w)) (conversations w).

(** A message the command tests let through. *)
Definition is_command (user_message : string) : bool :=
  String.eqb (PyStr.lower user_message) "!clear"
  || String.eqb (PyStr.lower user_message) "!help"
  || String.eqb (PyStr.lower user_message) "!info".

(** ** Configuration file and start-up *)

Definition DEFAULT_CONFIG : gmap string Value :=
  {[ "model" := VStr "gpt-3.5-turbo";
     "temperature" := VFloat "0.7";
     "max_tokens" := VInt 1000;
     "api_key" := VStr "";
     "server_port" := VInt 5000;
     "appearance_mode" := VStr "dark" ]}.

(** whatsapp_bot_config.json: absent, present but not loadable (it cannot
    be read or does not hold JSON), or holding the JSON of a dictionary
    whose values are strings, numbers or null. *)
Inductive ConfigFile :=
| NoFile
| BadFile
| JsonFile (cfg : gmap string Value).

(** What start-up and the GUI callbacks find outside: the environment
    variable with the credential, whether the configuration file can be
    written, whether a thread can be started and whether the requests
    module can be imported. *)
Record Sys := {
  OPENAI_API_KEY : option string;
  config_writable : bool;
  Thread_start : option Exn;
  import_requests : option Exn
}.

(** [save_config]: a failed write is printed and swallowed. *)
Definition save_config (sys : Sys) (cfg : gmap string Value) (file : ConfigFile)
  : ConfigFile :=
  if config_writable sys then JsonFile cfg else file.

(** [load_config]: the configuration, and the file as the call leaves it. *)
Definition load_config (sys : Sys) (file : ConfigFile)
  : gmap string Value * ConfigFile :=
  match file with
  | JsonFile cfg => (cfg, file)
  | NoFile | BadFile => (DEFAULT_CONFIG, save_config sys DEFAULT_CONFIG file)
  end.

(** Truthiness of a configuration value ([if v:]); a float is zero when it
    prints as 0.0 or -0.0. *)
Definition truthy_value (v : Value) : bool :=
  match v with
  | VStr s => negb (String.eqb s "")
  | VInt z => negb (z =? 0)%Z
  | VFloat r => negb (String.eqb r "0.0" || String.eqb r "-0.0")
  | VNone => false
  end.

Definition set_config (c : gmap string Value) (w : World) : World :=
  {| config := c; conversations := conversations w; heap := heap w;
     user_details := user_details w; api_key := api_key w;
     message_queue := message_queue w; user_file := user_file w;
     requests := requests w |}.

Definition set_api_key (k : option string) (w : World) : World :=
  {| config := config w; conversations := conversations w; heap := heap w;
     user_details := user_details w; api_key := k;
     message_queue := message_queue w; user_file := user_file w;
     requests := requests w |}.

(** [load_api_key].  [World] keeps the credential as text: a key taken from
    the configuration that is not a string is kept by its printed form,
    which is non-empty whenever the value is truthy. *)
Definition load_api_key (sys : Sys) : M bool :=
  cfg ← gets config;
  let from_env := OPENAI_API_KEY sys in
  let api_key : option Value :=
    match cfg !! "api_key" with
    | Some v => if negb (PyStr.truthy from_env) then Some v else VStr <$> from_env
    | None => VStr <$> from_env
    end in
  match api_key with
  | Some v =>
      if truthy_value v then
        modify (set_api_key (Some (py_str (Some v))));;
        mret true
      else mret false
  | None => mret false
  end.

(** [WhatsAppOpenAIBot.__init__]: [prior_key] is [openai.api_key] as the
    library set it on import, [users] what user_details.json holds when it
    can be loaded.  The world and the configuration file after start-up. *)
Definition init (sys : Sys) (prior_key : option string) (file : ConfigFile)
    (users : option (gmap string string)) : World * ConfigFile :=
  let (cfg, file') := load_config sys file in
  ((load_api_key sys (new_bot cfg prior_key users)).2, file').

(** ** The application: bot, server flag and the widgets of the GUI *)

(** What [show_conversation] puts into the conversation text box. *)
Inductive TextItem :=
| Inserted (text tag : string)
| ClearButton (user_id : string).

Record App := {
  bot : World;
  config_file : ConfigFile;
  running : bool;
  server_thread : option bool;
  status_var : string;
  api_var : string;
  conv_title : string;
  conv_text : list TextItem
}.

Definition set_bot (w : World) (a : App) : App :=
  {| bot := w; config_file := config_file a; running := running a;
     server_thread := server_thread a; status_var := status_var a;
     api_var := api_var a; conv_title := conv_title a; conv_text := conv_text a |}.

Definition set_config_file (f : ConfigFile) (a : App) : App :=
  {| bot := bot a; config_file := f; running := running a;
     server_thread := server_thread a; status_var := status_var a;
     api_var := api_var a; conv_title := conv_title a; conv_text := conv_text a |}.

Definition set_running (r : bool) (a : App) : App :=
  {| bot := bot a; config_file := config_file a; running := r;
     server_thread := server_thread a; status_var := status_var a;
     api_var := api_var a; conv_title := conv_title a; conv_text := conv_text a |}.

Definition set_server_thread (t : option bool) (a : App) : App :=
  {| bot := bot a; config_file := config_file a; running := running a;
     server_thread := t; status_var := status_var a;
     api_var := api_var a; conv_title := conv_title a; conv_text := conv_text a |}.

Definition set_status_var (s : string) (a : App) : App :=
  {| bot := bot a; config_file := config_file a; running := running a;
     server_thread := server_thread a; status_var := s;
     api_var := api_var a; conv_title := conv_title a; conv_text := conv_text a |}.

Definition set_api_var (s : string) (a : App) : App :=
  {| bot := bot a; config_file := config_file a; running := running a;
     server_thread := server_thread a; status_var := status_var a;
     api_var := s; conv_title := conv_title a; conv_text := conv_text a |}.

Definition set_conv_title (s : string) (a : App) : App :=
  {| bot := bot a; config_file := config_file a; running := running a;
     server_thread := server_thread a; status_var := status_var a;
     api_var := api_var a; conv_title := s; conv_text := conv_text a |}.

Definition set_conv_text (t : list TextItem) (a : App) : App :=
  {| bot := bot a; config_file := config_file a; running := running a;
     server_thread := server_thread a; status_var := status_var a;
     api_var := api_var a; conv_title := conv_title a; conv_text := t |}.

(** The monad of the callbacks: as [M], over the application. *)
Definition G (A : Type) : Type := App → Outcome A * App.

Global Instance G_ret : MRet G := λ A x a, (Ok x, a).

Global Instance G_bind : MBind G := λ A B k m a,
  match m a with
  | (Ok x, a') => k x a'
  | (Raise e, a') => (Raise e, a')
  end.

(** A method of the bot, called from the application. *)
Definition in_bot {A} (m : M A) : G A :=
  λ a, let (r, w') := m (bot a) in (r, set_bot w' a).

Definition update (f : App → App) : G unit := λ a, (Ok tt, f a).

Definition read {A} (f : App → A) : G A := λ a, (Ok (f a), a).

Definition fail {A} (e : Exn) : G A := λ a, (Raise e, a).

Definition try_app {A} (body : G A) (handler : Exn → G A) : G A :=
  λ a, match body a with
       | (Ok x, a') => (Ok x, a')
       | (Raise e, a') => handler e a'
       end.

(** *** Server flag *)

Definition start_server (sys : Sys) : G bool :=
  r ← read running;
  if (r : bool) then mret false
  else
    try_app
      (update (set_running true);;
       port ← read (λ a, default (VInt 5000) (config (bot a) !! "server_port"));
       update (set_server_thread (Some false));;
       match Thread_start sys with
       | Some e => fail e
       | None => update (set_server_thread (Some true))
       end;;
       in_bot (put ("[INFO] Server started on port " +:+ py_str (Some port)));;
       mret true)
      (λ e,
        update (set_running false);;
        in_bot (put ("[ERROR] Failed to start server: " +:+ str_exn e));;
        mret false).

(** [stop_server]: the shutdown request is sent inside a [try] whose
    [except] swallows everything; only the import before it can raise. *)
Definition stop_server (sys : Sys) : G unit :=
  r ← read running;
  if negb (r : bool) then mret tt
  else
    match import_requests sys with
    | Some e => fail e
    | None =>
        update (set_running false);;
        in_bot (put "[INFO] Server stopped")
    end.

(** *** Settings *)

(** A byte that continues a character of a UTF-8 text. *)
Definition is_continuation (c : ascii) : bool :=
  let n := N_of_ascii c in ((128 <=? n) && (n <? 192))%N.

(** [len(s)]: the number of characters, that is of bytes that begin
    one. *)
Fixpoint str_len (s : string) : nat :=
  match s with
  | EmptyString => 0
  | String c r => if is_continuation c then str_len r else S (str_len r)
  end.

(** [s[:n]]: the first [n] characters, each with all its bytes. *)
Fixpoint str_take (n : nat) (s : string) : string :=
  match s with
  | EmptyString => EmptyString
  | String c r =>
      if is_continuation c then String c (str_take n r)
      else match n with
           | O => EmptyString
           | S k => String c (str_take k r)
           end
  end.

(** [s[n:]]: what follows the first [n] characters. *)
Fixpoint str_drop (n : nat) (s : string) : string :=
  match s with
  | EmptyString => EmptyString
  | String c r =>
      if is_continuation c then str_drop n r
      else match n with
           | O => s
           | S k => str_drop k r
           end
  end.

(** [key[:4] + "..." + key[-4:]]; [key[-4:]] is the whole key when it
    has fewer than four characters. *)
Definition masked (key : string) : string :=
  str_take 4 key +:+ "..." +:+ str_drop (str_len key - 4) key.

(** [update_api_key]: [input] is what the dialog returns, [None] when it
    is cancelled. *)
Definition update_api_key (sys : Sys) (input : option string) : G unit :=
  let new_api_key := input in
  if PyStr.truthy new_api_key then
    let key := default "" new_api_key in
    in_bot (modify (λ w, set_config (<["api_key" := VStr key]> (config w)) w));;
    in_bot (modify (set_api_key (Some key)));;
    cfg ← read (λ a, config (bot a));
    update (λ a, set_config_file (save_config sys cfg (config_file a)) a);;
    update (set_api_var (masked key));;
    update (set_status_var "API key updated")
  else mret tt.

Definition update_model (sys : Sys) (choice : string) : G unit :=
  in_bot (modify (λ w, set_config (<["model" := VStr choice]> (config w)) w));;
  cfg ← read (λ a, config (bot a));
  update (λ a, set_config_file (save_config sys cfg (config_file a)) a);;
  update (set_status_var ("Model set to " +:+ choice)).

(** *** Conversation view *)

(** The body of the loop of [show_conversation]. *)
Definition show_message (m : Message) : G unit :=
  match role m with
  | system => mret tt
  | user =>
      update (λ a, set_conv_text
        (conv_text a ++ [Inserted ("User: " +:+ content m +:+ LF +:+ LF) "user"]) a)
  | assistant =>
      update (λ a, set_conv_text
        (conv_text a ++ [Inserted ("Bot: " +:+ content m +:+ LF +:+ LF) "bot"]) a)
  end.

Fixpoint for_each {A} (f : A → G unit) (l : list A) : G unit :=
  match l with
  | [] => mret tt
  | x :: rest => f x;; for_each f rest
  end.

Definition show_conversation (env : Env) (user_id : string) : G unit :=
  user_name ← in_bot (get_user_name env user_id);
  update (set_conv_title ("Conversation with " +:+ user_name));;
  update (set_conv_text []);;
  conversation ← in_bot (get_conversation_history user_id);
  items ← in_bot (read_list conversation);
  for_each show_message items;;
  update (λ a, set_conv_text (conv_text a ++ [ClearButton user_id]) a).

(** [BotGUI.clear_conversation] *)
Definition gui_clear_conversation (env : Env) (user_id : string) : G unit :=
  in_bot (clear_conversation user_id);;
  show_conversation env user_id;;
  user_name ← in_bot (get_user_name env user_id);
  update (set_status_var ("Cleared conversation for " +:+ user_name)).

(** ** Vocabulary of the statements *)

(** Unfolds the monadic plumbing and the projections of updated worlds. *)
Ltac run :=
  cbv [mbind M_bind mret M_ret gets modify raise try_except put
       new_list read_list list_append conversations_setitem
       save_user_details new_Client create first_choice_content] in *;
  cbn [config conversations heap user_details api_key message_queue
       user_file requests set_conversations set_heap set_user_details
       set_message_queue set_user_file set_requests fst snd] in *.

(** Fields [get_user_name] leaves alone. *)
Definition same_store (w w' : World) : Prop :=
  config w' = config w ∧ conversations w' = conversations w ∧
  heap w' = heap w ∧ api_key w' = api_key w ∧
  message_queue w' = message_queue w ∧ requests w' = requests w.

(** Fields the conversation store never touches. *)
Definition same_outside (w w' : World) : Prop :=
  config w' = config w ∧ user_details w' = user_details w ∧
  api_key w' = api_key w ∧ user_file w' = user_file w.

(** The name the directory derives for an identifier it does not hold. *)
Definition fallback_name (user_id : string) : string :=
  PyStr.replace user_id "whatsapp:" "".

(** Whether [get_user_name] records the derived name: both Twilio
    credentials are set and the client is constructed. *)
Definition records_name (env : Env) : bool :=
  PyStr.truthy (TWILIO_ACCOUNT_SID env) && PyStr.truthy (TWILIO_AUTH_TOKEN env)
  && bool_decide (Client env (default "" (TWILIO_ACCOUNT_SID env))
                    (default "" (TWILIO_AUTH_TOKEN env)) = None).

(** The request [process_chat] sends for a history. *)
Definition chat_request (cfg : gmap string Value) (messages : list Message) : Request :=
  {| req_model := default (VStr "gpt-3.5-turbo") (cfg !! "model");
     req_messages := messages;
     req_temperature := default (VFloat "0.7") (cfg !! "temperature");
     req_max_tokens := default (VInt 1000) (cfg !! "max_tokens") |}.

(** What the completion service yields once its answer is read: the text
    of the first choice, or the exception of the call or of the read. *)
Definition completion (r : Exn + Response) : Exn + string :=
  match r with
  | inl e => inl e
  | inr resp =>
      match choices resp with
      | [] => inl (Exception "list index out of range")
      | m :: _ => inr (content m)
      end
  end.

(** The retention policy in the words of the specification: beyond 20
    entries, element 0 and the last 19 are kept. *)
Definition trim (h : list Message) : list Message :=
  if (20 <? length h)%nat then take 1 h ++ drop (length h - 19) h else h.

Definition user_turn (text : string) : Message := {| role := user; content := text |}.

Definition assistant_turn (text : string) : Message :=
  {| role := assistant; content := text |}.

(** The history a chat message is answered from: what is stored, or the
    seed, followed by the new user turn. *)
Definition pending (w : World) (user_id user_message : string) : list Message :=
  default [seed_message] (history w user_id) ++ [user_turn user_message].

(** The reply of the [except] clause. *)
Definition error_reply (e : Exn) : string :=
  "Sorry, I encountered an error: " +:+ ("Error: " +:+ str_exn e).

(** [clear_conversation] as a function of the world it runs in. *)
Definition clear_reply (w : World) (uid : string) : string :=
  match conversations w !! uid with
  | Some _ => "Conversation history cleared. What would you like to talk about?"
  | None => "No conversation history found."
  end.

Definition cleared (w : World) (uid : string) : World :=
  match conversations w !! uid with
  | Some _ =>
      set_conversations (<[uid := length (heap w)]> (conversations w))
        (set_heap (heap w ++ [[seed_message]]) w)
  | None => w
  end.

(** Reply and effect of a directive, by its lowercased text. *)
Definition command_reply (cmd uid : string) (w : World) : string :=
  if String.eqb cmd "!clear" then clear_reply w uid
  else if String.eqb cmd "!help" then help_text
  else info_text (config w).

Definition command_effect (cmd uid : string) (w : World) : World :=
  if String.eqb cmd "!clear" then cleared w uid else w.

(** The call reached the completion service, and the service failed: it
    raised [e], or reading its answer did. *)
Definition gateway_failed (env : Env) (user_id user_message : string) (w : World)
    (e : Exn) : Prop :=
  ∃ req, requests (process_message env user_id user_message w).2 = requests w ++ [req] ∧
         completion (ChatCompletion_create env req) = inl e.

(** The call reached the completion service, which answered [a]. *)
Definition gateway_succeeded (env : Env) (user_id user_message : string) (w : World)
    (a : string) : Prop :=
  ∃ req, requests (process_message env user_id user_message w).2 = requests w ++ [req] ∧
         completion (ChatCompletion_create env req) = inr a.

(** A sequence of inbound messages of one user, each with the outside
    world it is processed in. *)
Fixpoint run_turns (user_id : string) (turns : list (Env * string)) (w : World) : World :=
  match turns with
  | [] => w
  | (env, user_message) :: rest =>
      run_turns user_id rest (process_message env user_id user_message w).2
  end.

Fixpoint all_successful (user_id : string) (turns : list (Env * string)) (w : World) : Prop :=
  match turns with
  | [] => True
  | (env, user_message) :: rest =>
      (∃ a, gateway_succeeded env user_id user_message w a) ∧
      all_successful user_id rest (process_message env user_id user_message w).2
  end.

(** No history yet, or one that was just cleared. *)
Definition fresh_history (w : World) (user_id : string) : Prop :=
  history w user_id = None ∨ history w user_id = Some [seed_message].

(** The three directives. *)
Definition command_literal (s : string) : Prop :=
  s = "!clear" ∨ s = "!help" ∨ s = "!info".

(** [part] occurs in [s]. *)
Definition contains (s part : string) : Prop :=
  ∃ before after, s = before +:+ part +:+ after.

(** ** Concrete worlds for the examples *)

(** No Twilio credential; the completion service answers [text]. *)
Definition env_answering (text : string) : Env :=
  {| now := "2024-05-01 12:00:00";
     TWILIO_ACCOUNT_SID := None; TWILIO_AUTH_TOKEN := None;
     Client := λ _ _, None; file_writable := true;
     ChatCompletion_create := λ _, inr {| choices := [assistant_turn text] |} |}.

(** No Twilio credential; the completion service raises. *)
Definition env_failing (description : string) : Env :=
  {| now := "2024-05-01 12:00:00";
     TWILIO_ACCOUNT_SID := None; TWILIO_AUTH_TOKEN := None;
     Client := λ _ _, None; file_writable := true;
     ChatCompletion_create := λ _, inl (Exception description) |}.

(** Both Twilio credentials set. *)
Definition env_twilio : Env :=
  {| now := "2024-05-01 12:00:00";
     TWILIO_ACCOUNT_SID := Some "AC0123"; TWILIO_AUTH_TOKEN := Some "secret";
     Client := λ _ _, None; file_writable := true;
     ChatCompletion_create := λ _, inr {| choices := [assistant_turn "Hi!"] |} |}.

Definition bot_without_key : World := new_bot ∅ None None.

Definition bot_with_key : World := new_bot ∅ (Some "sk-test") None.

(** Eleven chat messages of one user, all answered. *)
Definition eleven_turns : list (Env * string) :=
  replicate 11 (env_answering "Hi!", "Hello").

(** A text made of white space only, each a character of one byte (space,
    tab, line feed, ...). *)
Fixpoint blank (s : string) : bool :=
  match s with
  | EmptyString => true
  | String c r => PyStr.is_space c && blank r
  end.

(** ** Vocabulary of the further properties *)

(** A history as the store keeps it: the seed, then turns none of which
    is a system message. *)
Definition well_seeded (h : list Message) : Prop :=
  ∃ t, h = seed_message :: t ∧ Forall (λ m, role m ≠ system) t.

(** No list object is the history of two users. *)
Definition unshared (w : World) : Prop :=
  ∀ u1 u2 l,
    conversations w !! u1 = Some l → conversations w !! u2 = Some l → u1 = u2.

(** The invariant of the conversation store. *)
Definition store_inv (w : World) : Prop :=
  wf_world w ∧ unshared w ∧ ∀ u h, history w u = Some h → well_seeded h.

(** Partial correctness of a computation: [Q] on return, [R] on raise. *)
Definition triple {A} (P : World → Prop) (m : M A)
    (Q : A → World → Prop) (R : Exn → World → Prop) : Prop :=
  ∀ w, P w → match m w with
             | (Ok a, w') => Q a w'
             | (Raise e, w') => R e w'
             end.

(** A computation that keeps [P] however it ends. *)
Definition keeps {A} (P : World → Prop) (m : M A) : Prop :=
  triple P m (λ _, P) (λ _, P).

(** The invariant, with the history of another user as it was found. *)
Definition framed (user_id other : string) (kept : option (list Message))
    (w : World) : Prop :=
  store_inv w ∧ (other ≠ user_id → history w other = kept).

(** [framed], with [l] the list that is the history of [user_id]. *)
Definition at_list (user_id other : string) (kept : option (list Message))
    (l : nat) (w : World) : Prop :=
  framed user_id other kept w ∧ conversations w !! user_id = Some l.

(** A computation that leaves the references and the lists alone. *)
Definition quiet {A} (m : M A) : Prop :=
  ∀ w, conversations (m w).2 = conversations w ∧ heap (m w).2 = heap w.

(** One request to the [/bot] route: what the call finds outside, and the
    form values [Body] and [From]. *)
Record Delivery := {
  delivery_env : Env;
  delivery_body : option string;
  delivery_from : option string
}.

(** The world after a sequence of deliveries. *)
Fixpoint deliver (ds : list Delivery) (w : World) : World :=
  match ds with
  | [] => w
  | d :: rest =>
      deliver rest
        (whatsapp_webhook (delivery_env d) (delivery_body d) (delivery_from d) w).2
  end.

(** What a call adds to the event queue after its "Received" event. *)
Inductive call_events (env : Env) (user_name reply : string) : list string → Prop :=
| events_answered :
    call_events env user_name reply [sent_event (now env) user_name reply]
| events_completed :
    call_events env user_name reply
      [processing_event (now env) user_name; sent_event (now env) user_name reply]
| events_failed e :
    reply = "Sorry, I encountered an error: " +:+ "Error: " +:+ str_exn e →
    call_events env user_name reply
      [processing_event (now env) user_name;
       error_event (now env) ("Error: " +:+ str_exn e)].

(** A world with a credential in which user "A" has had one exchange. *)
Definition bot_after_hello : World :=
  (process_message (env_answering "Hi!") "A" "Hello" bot_with_key).2.

(** Whether [old] occurs somewhere in [s]. *)
Fixpoint occurs (old s : string) : bool :=
  String.prefix old s ||
  match s with
  | EmptyString => false
  | String _ r => occurs old r
  end.

(** Unfolds the plumbing of the application monad. *)
Ltac run_app :=
  cbv [mbind G_bind mret G_ret in_bot update read fail try_app M_bind M_ret
       gets modify raise put] in *;
  cbn [bot config_file running server_thread status_var api_var conv_title
       conv_text set_bot set_config_file set_running set_server_thread
       set_status_var set_api_var set_conv_title set_conv_text
       config conversations heap user_details api_key message_queue
       user_file requests set_conversations set_heap set_user_details
       set_message_queue set_user_file set_requests set_config set_api_key
       fst snd] in *.

(** What the conversation view shows for one turn. *)
Definition rendered (m : Message) : TextItem :=
  match role m with
  | user => Inserted ("User: " +:+ content m +:+ LF +:+ LF) "user"
  | _ => Inserted ("Bot: " +:+ content m +:+ LF +:+ LF) "bot"
  end.

(** A machine on which everything outside works, without a credential in
    the environment. *)
Definition sys_plain : Sys :=
  {| OPENAI_API_KEY := None; config_writable := true;
     Thread_start := None; import_requests := None |}.

(** The same with a read-only configuration file. *)
Definition sys_readonly : Sys :=
  {| OPENAI_API_KEY := None; config_writable := false;
     Thread_start := None; import_requests := None |}.

(** The application on a first start, once the window is built: no
    configuration file, no users, no server, an empty conversation view. *)
Definition app_first_start : App :=
  {| bot := (init sys_plain None NoFile None).1;
     config_file := (init sys_plain None NoFile None).2;
     running := false; server_thread := None;
     status_var := "Ready"; api_var := "";
     conv_title := "Select a conversation"; conv_text := [] |}.

(** The application after user "A" has had one exchange. *)
Definition app_after_hello : App := set_bot bot_after_hello app_first_start.

(** A text does not begin in the middle of a character. *)
Definition begins_character (s : string) : bool :=
  match s with
  | EmptyString => true
  | String c _ => negb (is_continuation c)
  end.

(** ** The primitives on sample inputs *)

Example strip_sample : PyStr.strip " !CLEAR " = "!CLEAR".
Proof. reflexivity. Qed.

Example strip_inner_sample : PyStr.strip "  hello  there " = "hello  there".
Proof. reflexivity. Qed.

Example lower_sample : PyStr.lower "!Clear 42" = "!clear 42".
Proof. reflexivity. Qed.

(** White space of more than one byte is stripped as well: a no-break
    space (U+00A0), an ideographic space (U+3000), a line separator
    (U+2028).  A zero-width space (U+200B) is no white space and stays. *)
Example strip_no_break_space_sample :
  PyStr.strip (string_of_list_ascii (map ascii_of_nat [194; 160]) +:+ "!clear"
               +:+ string_of_list_ascii (map ascii_of_nat [194; 160])) = "!clear".
Proof. reflexivity. Qed.

Example strip_wide_sample :
  PyStr.strip (string_of_list_ascii (map ascii_of_nat [227; 128; 128; 32]) +:+ "a b"
               +:+ string_of_list_ascii (map ascii_of_nat [226; 128; 168; 10])) = "a b".
Proof. reflexivity. Qed.

Example strip_zero_width_sample :
  PyStr.strip (string_of_list_ascii (map ascii_of_nat [226; 128; 139]) +:+ "x ")
    = string_of_list_ascii (map ascii_of_nat [226; 128; 139]) +:+ "x".
Proof. reflexivity. Qed.

(** [process_message] itself lowercases but does not trim: the webhook
    does. *)
Example untrimmed_sample :
  is_command " !CLEAR " = false ∧ is_command (PyStr.strip " !CLEAR ") = true.
Proof. split; reflexivity. Qed.

Example replace_sample :
  PyStr.replace "whatsapp:+15551234567" "whatsapp:" "" = "+15551234567".
Proof. reflexivity. Qed.

Example replace_every_sample :
  PyStr.replace "whatsapp:+1whatsapp:2" "whatsapp:" "" = "+12".
Proof. reflexivity. Qed.

Example replace_once_sample :
  PyStr.replace "whatswhatsapp:app:+1" "whatsapp:" "" = "whatsapp:+1".
Proof. reflexivity. Qed.

Example info_sample :
  info_text {[ "model" := VStr "gpt-x"; "temperature" := VFloat "0.5";
               "max_tokens" := VInt 200 ]}
  = "Bot Configuration:" +:+ LF +:+ "- Model: gpt-x" +:+ LF +:+
    "- Temperature: 0.5" +:+ LF +:+ "- Max tokens: 200".
Proof. reflexivity. Qed.

Example first_turn_sample :
  process_message (env_answering "Hi!") "A" "Hello" bot_with_key
  = (Ok "Hi!",
     {| config := ∅; conversations := {[ "A" := 0 ]};
        heap := [[seed_message; user_turn "Hello"; assistant_turn "Hi!"]];
        user_details := ∅; api_key := Some "sk-test";
        message_queue :=
          ["[2024-05-01 12:00:00] Received from A: Hello";
           "[2024-05-01 12:00:00] Processing request for A...";
           "[2024-05-01 12:00:00] Sent to A: Hi!"];
        user_file := None;
        requests := [chat_request ∅ [seed_message; user_turn "Hello"]] |}).
Proof. reflexivity. Qed.

(** ** The user directory *)

Lemma same_store_refl w : same_store w w.
Proof. by repeat split. Qed.

Lemma get_user_name_known env user_id name w :
  user_details w !! user_id = Some name →
  get_user_name env user_id w = (Ok name, w).
Proof. intros H. unfold get_user_name. run. by rewrite H. Qed.

Lemma get_user_name_unrecorded env user_id w :
  user_details w !! user_id = None →
  records_name env = false →
  get_user_name env user_id w = (Ok (fallback_name user_id), w).
Proof.
  intros H Hr. unfold get_user_name, records_name in *. run. rewrite H.
  destruct (PyStr.truthy (TWILIO_ACCOUNT_SID env) && PyStr.truthy (TWILIO_AUTH_TOKEN env));
    [|done].
  cbn [andb] in Hr. apply bool_decide_eq_false in Hr.
  destruct (Client env _ _); [done | congruence].
Qed.

Lemma get_user_name_recorded env user_id w :
  user_details w !! user_id = None →
  records_name env = true →
  get_user_name env user_id w =
    (Ok (fallback_name user_id),
     let w1 := set_user_details (<[user_id := fallback_name user_id]> (user_details w)) w in
     if file_writable env then set_user_file (Some (user_details w1)) w1 else w1).
Proof.
  intros H Hr. unfold get_user_name, records_name in *. run. rewrite H.
  apply andb_prop in Hr as [Hc Hk]. rewrite Hc.
  apply bool_decide_eq_true in Hk. rewrite Hk.
  by destruct (file_writable env).
Qed.

(** [get_user_name] returns, and touches nothing but the directory and
    its file. *)
Lemma get_user_name_returns env user_id w :
  ∃ name w', get_user_name env user_id w = (Ok name, w') ∧ same_store w w'.
Proof.
  destruct (user_details w !! user_id) as [name|] eqn:H.
  - exists name, w. split; [by apply get_user_name_known | apply same_store_refl].
  - destruct (records_name env) eqn:Hr.
    + eexists _, _. split; [by apply get_user_name_recorded|].
      by destruct (file_writable env).
    + eexists _, _. split; [by apply get_user_name_unrecorded | apply same_store_refl].
Qed.

(** ** The conversation store *)

Section conversation_store.
Implicit Types (w : World) (user_id : string) (h : list Message).

Lemma wf_lookup w user_id l :
  wf_world w → conversations w !! user_id = Some l → is_Some (heap w !! l).
Proof.
  intros Hwf Hl. apply lookup_lt_is_Some. exact (Hwf user_id l Hl).
Qed.

Lemma wf_new_bot cfg key file : wf_world (new_bot cfg key file).
Proof. unfold wf_world, new_bot. cbn. apply map_Forall_empty. Qed.

Lemma wf_alloc w user_id items :
  wf_world w →
  wf_world (set_conversations (<[user_id := length (heap w)]> (conversations w))
              (set_heap (heap w ++ [items]) w)).
Proof.
  intros Hwf. unfold wf_world in *. cbn. rewrite length_app. cbn.
  apply map_Forall_insert_2; [lia|].
  eapply map_Forall_impl; [exact Hwf|]. cbn. intros. lia.
Qed.

Lemma wf_alter w f l :
  wf_world w → wf_world (set_heap (alter f l (heap w)) w).
Proof. unfold wf_world. cbn. by rewrite length_alter. Qed.

Lemma wf_set_message_queue w q : wf_world w → wf_world (set_message_queue q w).
Proof. done. Qed.

(** Fetching yields a reference to the stored history, seeded on first
    contact. *)
Lemma get_conversation_history_spec user_id w :
  wf_world w →
  ∃ l w1, get_conversation_history user_id w = (Ok l, w1) ∧
    conversations w1 !! user_id = Some l ∧
    heap w1 !! l = Some (default [seed_message] (history w user_id)) ∧
    wf_world w1 ∧ same_outside w w1 ∧
    message_queue w1 = message_queue w ∧ requests w1 = requests w.
Proof.
  intros Hwf. unfold get_conversation_history, history. run.
  destruct (conversations w !! user_id) as [l|] eqn:Hc.
  - destruct (wf_lookup _ _ _ Hwf Hc) as [h Hh].
    exists l, w. rewrite Hh. by repeat split.
  - eexists _, _. split; [reflexivity|]. cbn.
    rewrite lookup_insert_eq. rewrite lookup_app_r by lia.
    rewrite Nat.sub_diag. repeat split; try done.
    by apply wf_alloc.
Qed.

End conversation_store.

Section process_chat.
Context (env : Env) (user_id user_message user_name timestamp : string).

Lemma process_chat_spec w :
  wf_world w →
  let h := pending w user_id user_message in
  let req := chat_request (config w) h in
  ∃ w', wf_world w' ∧ same_outside w w' ∧
    if negb (PyStr.truthy (api_key w)) then
      process_chat env user_id user_message user_name timestamp w
        = (Ok api_key_warning, w') ∧
      requests w' = requests w ∧ history w' user_id = Some h ∧
      message_queue w' =
        message_queue w ++ [sent_event timestamp user_name api_key_warning]
    else
      requests w' = requests w ++ [req] ∧
      match completion (ChatCompletion_create env req) with
      | inl e =>
          process_chat env user_id user_message user_name timestamp w
            = (Raise e, w') ∧
          history w' user_id = Some h ∧
          message_queue w' =
            message_queue w ++ [processing_event timestamp user_name]
      | inr a =>
          process_chat env user_id user_message user_name timestamp w
            = (Ok a, w') ∧
          history w' user_id = Some (trim (h ++ [assistant_turn a])) ∧
          message_queue w' =
            message_queue w ++ [processing_event timestamp user_name;
                                sent_event timestamp user_name a]
      end.
Proof.
  intros Hwf h req.
  destruct (get_conversation_history_spec user_id w Hwf)
    as (l & w1 & Hget & Hc & Hh & Hwf1 & (Hcfg & Hud & Hkey & Huf) & Hq & Hr).
  unfold process_chat. cbv [mbind M_bind]. rewrite Hget. run.
  rewrite Hkey.
  assert (Hl : alter (λ items, items ++ [user_turn user_message]) l (heap w1) !! l = Some h).
  { rewrite list_lookup_alter_eq, Hh. reflexivity. }
  unfold user_turn in Hl.
  destruct (PyStr.truthy (api_key w)); cbn [negb]; run.
  - (* a credential is set *)
    rewrite Hl. cbn [default from_option id]. rewrite Hcfg.
    fold (chat_request (config w) h). fold req.
    unfold completion.
    destruct (ChatCompletion_create env req) as [e|[[|m ms]]]; cbn [choices]; run.
    + eexists. split; [|split; [|split; [|split; [reflexivity|]]]]; run.
      * by apply wf_alter.
      * done.
      * by rewrite Hr.
      * unfold history. cbn. rewrite Hc, Hl, Hq. done.
    + eexists. split; [|split; [|split; [|split; [reflexivity|]]]]; run.
      * by apply wf_alter.
      * done.
      * by rewrite Hr.
      * unfold history. cbn. rewrite Hc, Hl, Hq. done.
    + set (items := h ++ [assistant_turn (content m)]).
      assert (Hl2 : alter (λ items, items ++ [assistant_turn (content m)]) l
                (alter (λ items, items ++ [user_turn user_message]) l (heap w1)) !! l
              = Some items).
      { rewrite list_lookup_alter_eq. unfold user_turn. by rewrite Hl. }
      unfold user_turn, assistant_turn in Hl2. rewrite Hl2.
      cbn [default from_option id]. unfold trim.
      destruct (20 <? length items)%nat eqn:Hlen.
      * destruct items as [|first rest] eqn:Hitems; [done|]. run.
        eexists. split; [|split; [|split; [|split; [reflexivity|]]]]; run.
        -- apply wf_set_message_queue.
           apply (wf_alloc (set_heap _ (set_requests _ (set_message_queue _ (set_heap _ w1))))).
           by do 2 apply wf_alter.
        -- done.
        -- by rewrite Hr.
        -- split; [|by rewrite Hq, <- app_assoc].
           unfold history. cbn [conversations heap set_message_queue set_conversations set_heap].
           rewrite lookup_insert_eq, lookup_app_r by lia. rewrite Nat.sub_diag. done.
      * run. eexists. split; [|split; [|split; [|split; [reflexivity|]]]]; run.
        -- by do 2 apply wf_alter.
        -- done.
        -- by rewrite Hr.
        -- split; [|by rewrite Hq, <- app_assoc].
           unfold history. cbn. by rewrite Hc, Hl2.
  - (* no credential *)
    eexists. split; [|split; [|split; [reflexivity|]]]; run.
    + by apply wf_alter.
    + done.
    + split; [done|]. split; [|by rewrite Hq].
      unfold history. cbn. by rewrite Hc, Hl.
Qed.

End process_chat.

(** ** [process_message], branch by branch *)

Section process_message.
Context (env : Env) (user_id user_message : string).

Lemma history_ext w w' uid :
  conversations w' = conversations w → heap w' = heap w →
  history w' uid = history w uid.
Proof. unfold history. by intros -> ->. Qed.

Lemma is_command_false :
  is_command user_message = false →
  String.eqb (PyStr.lower user_message) "!clear" = false ∧
  String.eqb (PyStr.lower user_message) "!help" = false ∧
  String.eqb (PyStr.lower user_message) "!info" = false.
Proof.
  unfold is_command. intros H.
  apply orb_false_elim in H as [H H3]. apply orb_false_elim in H as [H1 H2].
  done.
Qed.

(** The first two statements always bind [user_name] and [timestamp]. *)
Lemma process_message_enter w :
  ∃ user_name w1,
    get_user_name env user_id w = (Ok user_name, w1) ∧ same_store w w1 ∧
    process_message env user_id user_message w =
      try_except (process_body env user_id user_message user_name (now env))
                 (process_handler (Some (now env))) w1.
Proof.
  destruct (get_user_name_returns env user_id w) as (name & w1 & Hg & Hs).
  exists name, w1. repeat split; try apply Hs; try done.
  unfold process_message. by rewrite Hg.
Qed.

(** A message that is no command: the three ways the call ends. *)
Lemma process_message_chat w :
  wf_world w → is_command user_message = false →
  let h := pending w user_id user_message in
  let req := chat_request (config w) h in
  ∃ user_name w', wf_world w' ∧ config w' = config w ∧ api_key w' = api_key w ∧
    let received := received_event (now env) user_name user_message in
    if negb (PyStr.truthy (api_key w)) then
      process_message env user_id user_message w = (Ok api_key_warning, w') ∧
      requests w' = requests w ∧ history w' user_id = Some h ∧
      message_queue w' = message_queue w ++
        [received; sent_event (now env) user_name api_key_warning]
    else
      requests w' = requests w ++ [req] ∧
      match completion (ChatCompletion_create env req) with
      | inl e =>
          process_message env user_id user_message w = (Ok (error_reply e), w') ∧
          history w' user_id = Some h ∧
          message_queue w' = message_queue w ++
            [received; processing_event (now env) user_name;
             error_event (now env) ("Error: " +:+ str_exn e)]
      | inr a =>
          process_message env user_id user_message w = (Ok a, w') ∧
          history w' user_id = Some (trim (h ++ [assistant_turn a])) ∧
          message_queue w' = message_queue w ++
            [received; processing_event (now env) user_name;
             sent_event (now env) user_name a]
      end.
Proof.
  intros Hwf Hcmd h req.
  destruct (process_message_enter w)
    as (name & w1 & _ & (Hcfg & Hconv & Hheap & Hkey & Hq & Hr) & ->).
  destruct (is_command_false Hcmd) as (H1 & H2 & H3).
  set (w2 := set_message_queue
               (message_queue w1 ++ [received_event (now env) name user_message]) w1).
  assert (Hwf2 : wf_world w2).
  { unfold wf_world, w2. cbn. rewrite Hconv, Hheap. exact Hwf. }
  assert (Hh : pending w2 user_id user_message = h).
  { unfold h, pending. f_equal. f_equal. by apply history_ext. }
  destruct (process_chat_spec env user_id user_message name (now env) w2 Hwf2)
    as (w' & Hwf' & (Hcfg' & _ & Hkey' & _) & Hspec).
  cbn [w2 api_key config set_message_queue message_queue requests] in Hspec, Hcfg', Hkey'.
  rewrite Hh, Hcfg, Hkey, Hr, Hq in Hspec. fold req in Hspec.
  assert (Hbody : process_body env user_id user_message name (now env) w1
                  = process_chat env user_id user_message name (now env) w2).
  { unfold process_body. run. by rewrite H1, H2, H3. }
  unfold try_except. rewrite Hbody.
  destruct (negb (PyStr.truthy (api_key w))).
  - destruct Hspec as (-> & Hr' & Hh' & Hq').
    exists name, w'. repeat split; try done; try congruence.
    by rewrite Hq', <- app_assoc.
  - destruct Hspec as (Hr' & Hspec).
    destruct (completion (ChatCompletion_create env req)) as [e|a].
    + destruct Hspec as (-> & Hh' & Hq').
      exists name, (set_message_queue
        (message_queue w' ++ [error_event (now env) ("Error: " +:+ str_exn e)]) w').
      unfold process_handler. run.
      repeat split; try done; try congruence.
      by rewrite Hq', <- !app_assoc.
    + destruct Hspec as (-> & Hh' & Hq').
      exists name, w'. repeat split; try done; try congruence.
      by rewrite Hq', <- app_assoc.
Qed.

Lemma clear_conversation_eq uid w :
  clear_conversation uid w = (Ok (clear_reply w uid), cleared w uid).
Proof.
  unfold clear_conversation, clear_reply, cleared. run.
  by destruct (conversations w !! uid).
Qed.

Lemma process_message_command w :
  is_command user_message = true →
  ∃ user_name w1,
    get_user_name env user_id w = (Ok user_name, w1) ∧ same_store w w1 ∧
    let reply := command_reply (PyStr.lower user_message) user_id w1 in
    process_message env user_id user_message w =
      (Ok reply,
       set_message_queue
         (message_queue w1 ++
            [received_event (now env) user_name user_message;
             sent_event (now env) user_name reply])
         (command_effect (PyStr.lower user_message) user_id w1)).
Proof.
  intros Hcmd.
  destruct (process_message_enter w) as (name & w1 & Hg & Hs & ->).
  exists name, w1. split; [done|]. split; [done|].
  unfold is_command in Hcmd.
  unfold try_except, process_body, command_reply, command_effect. run.
  destruct (String.eqb (PyStr.lower user_message) "!clear") eqn:H1.
  { rewrite clear_conversation_eq. run.
    unfold clear_reply, cleared. cbn [conversations set_message_queue heap].
    destruct (conversations w1 !! user_id); cbn; by rewrite <- app_assoc. }
  destruct (String.eqb (PyStr.lower user_message) "!help") eqn:H2.
  { run. by rewrite <- app_assoc. }
  destruct (String.eqb (PyStr.lower user_message) "!info") eqn:H3; [|done].
  run. by rewrite <- app_assoc.
Qed.

End process_message.

(** ** Reaching the completion service *)

Section gateway.
Context (env : Env) (user_id user_message : string) (w : World).
Hypothesis Hwf : wf_world w.

Lemma requests_grow_inv (rs : list Request) (r r' : Request) :
  rs ++ [r] = rs ++ [r'] → r = r'.
Proof. intros H. by apply app_inj_tail in H as [_ ->]. Qed.

Lemma requests_same_inv (rs : list Request) (r : Request) : rs ≠ rs ++ [r].
Proof.
  intros H. apply (f_equal length) in H. rewrite length_app in H. cbn in H. lia.
Qed.

(** A call appends a request only on the chat path with a credential, and
    the request is the pending history under the current configuration. *)
Lemma request_made req :
  requests (process_message env user_id user_message w).2 = requests w ++ [req] →
  is_command user_message = false ∧ PyStr.truthy (api_key w) = true ∧
  req = chat_request (config w) (pending w user_id user_message).
Proof.
  intros Hreq. destruct (is_command user_message) eqn:Hcmd.
  - destruct (process_message_command env user_id user_message w Hcmd)
      as (name & w1 & _ & (_ & _ & _ & _ & _ & Hr) & Hpm).
    cbn zeta in Hpm. rewrite Hpm in Hreq. cbn [snd requests set_message_queue] in Hreq.
    unfold command_effect, cleared in Hreq.
    exfalso. apply (requests_same_inv (requests w) req). rewrite <- Hreq, <- Hr.
    by repeat case_match.
  - destruct (process_message_chat env user_id user_message w Hwf Hcmd)
      as (name & w' & _ & _ & _ & Hspec). cbn zeta in Hspec.
    destruct (PyStr.truthy (api_key w)); cbn [negb] in Hspec.
    + destruct Hspec as (Hr & Hspec). repeat split.
      destruct (completion _); destruct Hspec as (Hpm & _);
        rewrite Hpm in Hreq; cbn [snd] in Hreq; rewrite Hr in Hreq;
        symmetry; by eapply requests_grow_inv.
    + destruct Hspec as (Hpm & Hr & _). rewrite Hpm in Hreq. cbn [snd] in Hreq.
      rewrite Hr in Hreq. exfalso. by eapply requests_same_inv.
Qed.

Lemma request_reached :
  is_command user_message = false → PyStr.truthy (api_key w) = true →
  requests (process_message env user_id user_message w).2 =
    requests w ++ [chat_request (config w) (pending w user_id user_message)].
Proof.
  intros Hcmd Hkey.
  destruct (process_message_chat env user_id user_message w Hwf Hcmd)
    as (name & w' & _ & _ & _ & Hspec). cbn zeta in Hspec.
  rewrite Hkey in Hspec. cbn [negb] in Hspec. destruct Hspec as (Hr & Hspec).
  destruct (completion _); destruct Hspec as (-> & _); by cbn.
Qed.

Lemma gateway_failed_intro e :
  is_command user_message = false → PyStr.truthy (api_key w) = true →
  completion (ChatCompletion_create env
     (chat_request (config w) (pending w user_id user_message))) = inl e →
  gateway_failed env user_id user_message w e.
Proof. intros Hcmd Hkey He. eexists. split; [by apply request_reached | done]. Qed.

Lemma gateway_succeeded_intro a :
  is_command user_message = false → PyStr.truthy (api_key w) = true →
  completion (ChatCompletion_create env
     (chat_request (config w) (pending w user_id user_message))) = inr a →
  gateway_succeeded env user_id user_message w a.
Proof. intros Hcmd Hkey He. eexists. split; [by apply request_reached | done]. Qed.

(** The outcome of a call whose request failed. *)
Lemma gateway_failed_outcome e :
  gateway_failed env user_id user_message w e →
  ∃ w', process_message env user_id user_message w = (Ok (error_reply e), w') ∧
        wf_world w' ∧
        history w' user_id = Some (pending w user_id user_message).
Proof.
  intros (req & Hreq & He).
  destruct (request_made req Hreq) as (Hcmd & Hkey & ->).
  destruct (process_message_chat env user_id user_message w Hwf Hcmd)
    as (name & w' & Hwf' & _ & _ & Hspec). cbn zeta in Hspec.
  rewrite Hkey, He in Hspec. cbn [negb] in Hspec.
  destruct Hspec as (_ & Hpm & Hh & _). by exists w'.
Qed.

(** The outcome of a call whose request was answered. *)
Lemma gateway_succeeded_outcome a :
  gateway_succeeded env user_id user_message w a →
  ∃ w', process_message env user_id user_message w = (Ok a, w') ∧
        wf_world w' ∧
        history w' user_id =
          Some (trim (pending w user_id user_message ++ [assistant_turn a])).
Proof.
  intros (req & Hreq & He).
  destruct (request_made req Hreq) as (Hcmd & Hkey & ->).
  destruct (process_message_chat env user_id user_message w Hwf Hcmd)
    as (name & w' & Hwf' & _ & _ & Hspec). cbn zeta in Hspec.
  rewrite Hkey, He in Hspec. cbn [negb] in Hspec.
  destruct Hspec as (_ & Hpm & Hh & _). by exists w'.
Qed.

End gateway.

(** ** Every call returns *)

Lemma wf_cleared w uid : wf_world w → wf_world (cleared w uid).
Proof.
  intros Hwf. unfold cleared. destruct (conversations w !! uid); [|done].
  by apply wf_alloc.
Qed.

(** [process_message] returns a reply from every well-formed world, which
    it leaves well formed. *)
Lemma process_message_returns env user_id user_message w :
  wf_world w →
  ∃ reply w', process_message env user_id user_message w = (Ok reply, w') ∧
              wf_world w'.
Proof.
  intros Hwf. destruct (is_command user_message) eqn:Hcmd.
  - destruct (process_message_command env user_id user_message w Hcmd)
      as (name & w1 & _ & (_ & Hc & Hh & _) & Hpm).
    cbn zeta in Hpm. eexists _, _. split; [exact Hpm|].
    apply wf_set_message_queue. unfold command_effect.
    assert (wf_world w1) by (unfold wf_world; by rewrite Hc, Hh).
    case_match; [by apply wf_cleared | done].
  - destruct (process_message_chat env user_id user_message w Hwf Hcmd)
      as (name & w' & Hwf' & _ & _ & Hspec). cbn zeta in Hspec.
    destruct (negb _).
    + destruct Hspec as (Hpm & _). by eexists _, _.
    + destruct Hspec as (_ & Hspec).
      destruct (completion _); destruct Hspec as (Hpm & _); by eexists _, _.
Qed.

Lemma string_app_empty_r (s : string) : s +:+ "" = s.
Proof.
  induction s as [|c s IH]; [done|].
  change (String c (s +:+ "") = String c s). by rewrite IH.
Qed.

(** The history a successful turn stores. *)
Lemma gateway_succeeded_history env user_id user_message w a :
  wf_world w →
  gateway_succeeded env user_id user_message w a →
  history (process_message env user_id user_message w).2 user_id =
    Some (trim (default [seed_message] (history w user_id)
                  ++ [user_turn user_message; assistant_turn a])).
Proof.
  intros Hwf Ha.
  destruct (gateway_succeeded_outcome env user_id user_message w Hwf a Ha)
    as (w' & -> & _ & Hh). cbn [snd]. rewrite Hh. unfold pending.
  by rewrite <- app_assoc.
Qed.

(** ** The claims *)

(** C1, as the code has it: without a credential a chat message gets
    the fixed warning and the completion service is not called, but the
    user turn has already been appended to the stored history, which is
    the previous history (the seed on first contact) followed by it. *)
Theorem C1_no_credential env user_id user_message w :
  wf_world w →
  PyStr.truthy (api_key w) = false →
  is_command user_message = false →
  ∃ w', process_message env user_id user_message w = (Ok api_key_warning, w') ∧
        requests w' = requests w ∧
        history w' user_id =
          Some (default [seed_message] (history w user_id) ++ [user_turn user_message]).
Proof.
  intros Hwf Hkey Hcmd.
  destruct (process_message_chat env user_id user_message w Hwf Hcmd)
    as (name & w' & _ & _ & _ & Hspec). cbn zeta in Hspec.
  rewrite Hkey in Hspec. cbn [negb] in Hspec.
  destruct Hspec as (Hpm & Hr & Hh & _). by exists w'.
Qed.

Lemma C1_no_credential_witness :
  ∃ w', process_message (env_answering "Hi!") "A" "Hello" bot_without_key
          = (Ok api_key_warning, w') ∧
        requests w' = requests bot_without_key ∧
        history w' "A" =
          Some (default [seed_message] (history bot_without_key "A") ++ [user_turn "Hello"]).
Proof.
  apply (C1_no_credential (env_answering "Hi!") "A" "Hello" bot_without_key).
  - apply wf_new_bot.
  - reflexivity.
  - reflexivity.
Defined.

(** C1 as stated fails: user "A" sends "Hello" with no credential
    configured, and the stored history is the seed followed by the user
    turn, not the seed alone. *)
Lemma C1_history_changed :
  PyStr.truthy (api_key bot_without_key) = false ∧
  is_command "Hello" = false ∧
  (process_message (env_answering "Hi!") "A" "Hello" bot_without_key).1
    = Ok api_key_warning ∧
  history bot_without_key "A" = None ∧
  history (process_message (env_answering "Hi!") "A" "Hello" bot_without_key).2 "A"
    = Some [seed_message; user_turn "Hello"] ∧
  history (process_message (env_answering "Hi!") "A" "Hello" bot_without_key).2 "A"
    ≠ Some [seed_message].
Proof. vm_compute. repeat split; congruence. Qed.

(** C3, as the code has it: the user turn is appended to the stored
    history before the completion service is called and the assistant turn
    after it answered.  When the call fails the stored history is the
    previous one (the seed on first contact) followed by the user turn;
    when it succeeds, both turns follow it, trimmed. *)
Theorem C3_turn_persistence env user_id user_message w :
  wf_world w →
  (∀ e, gateway_failed env user_id user_message w e →
        history (process_message env user_id user_message w).2 user_id =
          Some (default [seed_message] (history w user_id) ++ [user_turn user_message])) ∧
  (∀ a, gateway_succeeded env user_id user_message w a →
        history (process_message env user_id user_message w).2 user_id =
          Some (trim (default [seed_message] (history w user_id)
                        ++ [user_turn user_message; assistant_turn a]))).
Proof.
  intros Hwf. split.
  - intros e He.
    destruct (gateway_failed_outcome env user_id user_message w Hwf e He)
      as (w' & -> & _ & Hh). exact Hh.
  - intros a Ha. by apply gateway_succeeded_history.
Qed.

Lemma C3_turn_persistence_witness :
  history (process_message (env_failing "timeout") "A" "Hello" bot_with_key).2 "A" =
    Some (default [seed_message] (history bot_with_key "A") ++ [user_turn "Hello"]) ∧
  history (process_message (env_answering "Hi!") "A" "Hello" bot_with_key).2 "A" =
    Some (trim (default [seed_message] (history bot_with_key "A")
                  ++ [user_turn "Hello"; assistant_turn "Hi!"])).
Proof.
  split.
  - apply (proj1 (C3_turn_persistence (env_failing "timeout") "A" "Hello" bot_with_key
                    (wf_new_bot _ _ _)) (Exception "timeout")).
    apply gateway_failed_intro; [apply wf_new_bot | reflexivity..].
  - apply (proj2 (C3_turn_persistence (env_answering "Hi!") "A" "Hello" bot_with_key
                    (wf_new_bot _ _ _)) "Hi!").
    apply gateway_succeeded_intro; [apply wf_new_bot | reflexivity..].
Defined.

(** C3 as stated fails: the completion service raises on the first
    message of user "A", and the user turn stays in the stored history. *)
Lemma C3_lone_user_turn :
  gateway_failed (env_failing "timeout") "A" "Hello" bot_with_key (Exception "timeout") ∧
  history bot_with_key "A" = None ∧
  history (process_message (env_failing "timeout") "A" "Hello" bot_with_key).2 "A"
    = Some [seed_message; user_turn "Hello"] ∧
  history (process_message (env_failing "timeout") "A" "Hello" bot_with_key).2 "A"
    ≠ history bot_with_key "A" ∧
  history (process_message (env_failing "timeout") "A" "Hello" bot_with_key).2 "A"
    ≠ Some [seed_message].
Proof.
  split.
  { apply gateway_failed_intro; [apply wf_new_bot | reflexivity..]. }
  vm_compute. repeat split; congruence.
Qed.

(** C7: when the completion service fails, [process_message] returns
    normally; its reply is ["Sorry, I encountered an error: "] followed by
    ["Error: "] and the description of the failure, hence non-empty and
    containing that description. *)
Theorem C7_gateway_failure_reply env user_id user_message w e :
  wf_world w →
  gateway_failed env user_id user_message w e →
  ∃ reply w',
    process_message env user_id user_message w = (Ok reply, w') ∧
    reply = "Sorry, I encountered an error: " +:+ "Error: " +:+ str_exn e ∧
    reply ≠ "" ∧
    contains reply (str_exn e).
Proof.
  intros Hwf He.
  destruct (gateway_failed_outcome env user_id user_message w Hwf e He)
    as (w' & Hpm & _).
  exists (error_reply e), w'. split; [exact Hpm|]. split; [done|]. split; [done|].
  exists "Sorry, I encountered an error: Error: ", "".
  unfold error_reply. by rewrite string_app_empty_r.
Qed.

Lemma C7_gateway_failure_reply_witness :
  ∃ reply w',
    process_message (env_failing "timeout") "A" "Hello" bot_with_key = (Ok reply, w') ∧
    reply = "Sorry, I encountered an error: " +:+ "Error: " +:+ "timeout" ∧
    reply ≠ "" ∧
    contains reply "timeout".
Proof.
  apply (C7_gateway_failure_reply (env_failing "timeout") "A" "Hello" bot_with_key
           (Exception "timeout")).
  - apply wf_new_bot.
  - apply gateway_failed_intro; [apply wf_new_bot | reflexivity..].
Defined.

(** *** Trimming *)

Lemma trim_length (h : list Message) : length (trim h) = min (length h) 20.
Proof.
  unfold trim. destruct (20 <? length h)%nat eqn:Hlen.
  - apply Nat.ltb_lt in Hlen. rewrite length_app, length_take, length_drop. lia.
  - apply Nat.ltb_ge in Hlen. lia.
Qed.

Lemma trim_first (h : list Message) : trim h !! 0 = h !! 0.
Proof.
  unfold trim. destruct (20 <? length h)%nat eqn:Hlen; [|done].
  apply Nat.ltb_lt in Hlen. destruct h as [|m h]; [cbn in Hlen; lia | done].
Qed.

(** *** Sequences of successful turns *)

Section turns.
Context (user_id : string).

Lemma successful_turn_step env user_message w :
  wf_world w →
  (∃ a, gateway_succeeded env user_id user_message w a) →
  let h0 := default [seed_message] (history w user_id) in
  let w' := (process_message env user_id user_message w).2 in
  wf_world w' ∧
  ∃ h', history w' user_id = Some h' ∧
        length h' = min (length h0 + 2) 20 ∧
        (h0 ≠ [] → h' !! 0 = h0 !! 0).
Proof.
  intros Hwf [a Ha] h0 w'.
  destruct (gateway_succeeded_outcome env user_id user_message w Hwf a Ha)
    as (w1 & Hpm & Hwf1 & Hh).
  subst w'. rewrite Hpm. cbn [snd]. split; [done|].
  eexists. split; [exact Hh|]. unfold pending. fold h0. split.
  - rewrite trim_length, !length_app. cbn. lia.
  - intros Hne. rewrite trim_first. destruct h0; [done | done].
Qed.

Lemma run_turns_length turns : ∀ w,
  wf_world w →
  let h0 := default [seed_message] (history w user_id) in
  (length h0 ≤ 20)%nat → h0 ≠ [] →
  all_successful user_id turns w →
  let w' := run_turns user_id turns w in
  let h' := default [seed_message] (history w' user_id) in
  wf_world w' ∧
  length h' = min (length h0 + 2 * length turns) 20 ∧
  h' !! 0 = h0 !! 0 ∧
  (turns ≠ [] → history w' user_id = Some h').
Proof.
  induction turns as [|[env msg] rest IH]; intros w Hwf h0 Hlen Hne Hall.
  - cbn. fold h0. repeat split; [done | lia | done].
  - destruct Hall as [Hok Hrest].
    destruct (successful_turn_step env msg w Hwf Hok) as (Hwf1 & h1 & Hh1 & Hlen1 & Hfirst1).
    fold h0 in Hlen1, Hfirst1.
    set (w1 := (process_message env user_id msg w).2) in *.
    assert (Hne1 : h1 ≠ []).
    { intros ->. cbn in Hlen1. lia. }
    specialize (IH w1 Hwf1). cbn zeta in IH. rewrite Hh1 in IH. cbn [default from_option id] in IH.
    destruct (IH ltac:(lia) Hne1 Hrest) as (Hwf' & Hlen' & Hfirst' & Hsome).
    cbn [run_turns]. fold w1. repeat split.
    + done.
    + rewrite Hlen', Hlen1. cbn [length]. lia.
    + rewrite Hfirst'. by apply Hfirst1.
    + intros _. destruct rest as [|t rest'].
      * cbn [run_turns]. rewrite Hh1. done.
      * by apply Hsome.
Qed.

(** Turns succeed when a credential is set, no message is a directive and
    the service answers whatever it is asked. *)
Lemma all_successful_intro turns : ∀ w,
  wf_world w → PyStr.truthy (api_key w) = true →
  Forall (λ t, is_command t.2 = false ∧
               ∀ req, ∃ a, completion (ChatCompletion_create t.1 req) = inr a) turns →
  all_successful user_id turns w.
Proof.
  induction turns as [|[env msg] rest IH]; intros w Hwf Hkey Hall; [done|].
  apply Forall_cons in Hall as [[Hcmd Hans] Hall]. cbn in Hcmd, Hans.
  cbn [all_successful]. split.
  - destruct (Hans (chat_request (config w) (pending w user_id msg))) as [a Ha].
    exists a. by apply gateway_succeeded_intro.
  - destruct (process_message_chat env user_id msg w Hwf Hcmd)
      as (name & w' & Hwf' & _ & Hkey' & Hspec). cbn zeta in Hspec.
    rewrite Hkey in Hspec. cbn [negb] in Hspec. destruct Hspec as (_ & Hspec).
    assert (Hw' : (process_message env user_id msg w).2 = w').
    { destruct (completion _); by destruct Hspec as (-> & _). }
    rewrite Hw'. apply IH; [done | congruence | done].
Qed.

End turns.

(** C2: after N ≥ 1 successful chat turns of a user who starts without
    history (or with one just cleared), the stored history has
    min (1 + 2N, 20) entries and begins with the system message; each
    successful turn stores the previous history followed by the user and the
    assistant turn, cut back to element 0 and the last 19 when that exceeds
    20 entries. *)
Theorem C2_history_length user_id w :
  wf_world w →
  (∀ turns,
     fresh_history w user_id → turns ≠ [] → all_successful user_id turns w →
     ∃ h, history (run_turns user_id turns w) user_id = Some h ∧
          length h = min (1 + 2 * length turns) 20 ∧
          role <$> h !! 0 = Some system) ∧
  (∀ env user_message a,
     gateway_succeeded env user_id user_message w a →
     history (process_message env user_id user_message w).2 user_id =
       Some (trim (default [seed_message] (history w user_id)
                     ++ [user_turn user_message; assistant_turn a]))).
Proof.
  intros Hwf. split.
  - intros turns Hfresh Hne Hall.
    assert (Hh0 : default [seed_message] (history w user_id) = [seed_message]).
    { by destruct Hfresh as [-> | ->]. }
    destruct (run_turns_length user_id turns w Hwf) as (_ & Hlen & Hfirst & Hsome);
      [rewrite Hh0; cbn; lia | by rewrite Hh0 | done |].
    rewrite Hh0 in Hlen, Hfirst. eexists. split; [by apply Hsome|].
    split; [exact Hlen|]. by rewrite Hfirst.
  - intros env msg a Ha.
    by apply gateway_succeeded_history.
Qed.

Lemma C2_history_length_witness :
  (∃ h, history (run_turns "A" eleven_turns bot_with_key) "A" = Some h ∧
        length h = min (1 + 2 * length eleven_turns) 20 ∧
        role <$> h !! 0 = Some system) ∧
  history (process_message (env_answering "Hi!") "A" "Hello" bot_with_key).2 "A" =
    Some (trim (default [seed_message] (history bot_with_key "A")
                  ++ [user_turn "Hello"; assistant_turn "Hi!"])).
Proof.
  split.
  - apply (proj1 (C2_history_length "A" bot_with_key (wf_new_bot _ _ _)) eleven_turns).
    + left. reflexivity.
    + discriminate.
    + apply all_successful_intro; [apply wf_new_bot | reflexivity |].
      repeat constructor; intros req; by eexists.
  - apply (proj2 (C2_history_length "A" bot_with_key (wf_new_bot _ _ _))
             (env_answering "Hi!") "Hello" "Hi!").
    apply gateway_succeeded_intro; [apply wf_new_bot | reflexivity..].
Defined.

(** *** Trimming and case folding of text *)

Section strings.

Lemma lower_char_space (c : ascii) : PyStr.is_space c = true → PyStr.lower_char c = c.
Proof. destruct c as [[] [] [] [] [] [] [] []]; by vm_compute. Qed.

(** A character that folds to a visible one is not white space. *)
Lemma lower_char_visible (c d : ascii) :
  PyStr.lower_char c = d → PyStr.is_space d = false → PyStr.is_space c = false.
Proof.
  intros Hc Hd. destruct (PyStr.is_space c) eqn:Hs; [|done].
  rewrite (lower_char_space c Hs) in Hc. congruence.
Qed.

(** A byte that folds to a visible ASCII character begins no white-space
    character, read from the front or from the end. *)
Lemma directive_byte (c d : ascii) (l : list ascii) :
  PyStr.lower_char c = d → (N_of_ascii d < 128)%N → PyStr.is_space d = false →
  PyStr.space_width PyStr.wide_spaces (c :: l) = 0 ∧
  PyStr.space_width (map reverse PyStr.wide_spaces) (c :: l) = 0.
Proof.
  intros <-.
  destruct c as [[] [] [] [] [] [] [] []]; intros Hd Hs;
    try (by vm_compute in Hd); try (by vm_compute in Hs); by split.
Qed.

Lemma list_ascii_of_app (s t : string) :
  list_ascii_of_string (s +:+ t) = list_ascii_of_string s ++ list_ascii_of_string t.
Proof.
  induction s as [|c s IH]; [done|].
  change (c :: list_ascii_of_string (s +:+ t) =
          c :: list_ascii_of_string s ++ list_ascii_of_string t).
  by rewrite IH.
Qed.

Lemma blank_forallb (s : string) :
  blank s = forallb PyStr.is_space (list_ascii_of_string s).
Proof. induction s as [|c s IH]; [done|]. cbn. by rewrite IH. Qed.

Lemma forallb_reverse {A} (f : A → bool) (l : list A) :
  forallb f (reverse l) = forallb f l.
Proof.
  induction l as [|x l IH]; [done|].
  rewrite reverse_cons, forallb_app, IH. cbn. by rewrite andb_true_r, andb_comm.
Qed.

(** Leading bytes of white space are skipped. *)
Lemma skip_spaces_blank wide (pre l : list ascii) :
  forallb PyStr.is_space pre = true →
  PyStr.skip_spaces wide 0 (pre ++ l) = PyStr.skip_spaces wide 0 l.
Proof.
  induction pre as [|c pre IH]; [done|]. cbn [forallb].
  intros [Hc Hpre]%andb_prop.
  change ((c :: pre) ++ l) with (c :: (pre ++ l)).
  cbn [PyStr.skip_spaces PyStr.space_width]. rewrite Hc. by apply IH.
Qed.

(** The scan stops at a byte that begins no white-space character. *)
Lemma skip_spaces_stop wide (c : ascii) (l : list ascii) :
  PyStr.space_width wide (c :: l) = 0 →
  PyStr.skip_spaces wide 0 (c :: l) = c :: l.
Proof. intros H. cbn [PyStr.skip_spaces]. by rewrite H. Qed.


(** White space around a text whose first and last byte begin no
    white-space character is removed, and nothing else. *)
Lemma strip_padded (pre post : string) (first last : ascii) (middle : list ascii) :
  blank pre = true → blank post = true →
  (∀ l, PyStr.space_width PyStr.wide_spaces (first :: l) = 0) →
  (∀ l, PyStr.space_width (map reverse PyStr.wide_spaces) (last :: l) = 0) →
  PyStr.strip (pre +:+ string_of_list_ascii (first :: middle ++ [last]) +:+ post)
    = string_of_list_ascii (first :: middle ++ [last]).
Proof.
  intros Hpre Hpost Hfirst Hlast. rewrite blank_forallb in Hpre, Hpost.
  set (core := first :: middle ++ [last]) in *.
  unfold PyStr.strip, PyStr.lstrip, PyStr.rstrip.
  rewrite !list_ascii_of_app, !list_ascii_of_string_of_list_ascii.
  rewrite skip_spaces_blank by done.
  assert (Hl : PyStr.skip_spaces PyStr.wide_spaces 0 (core ++ list_ascii_of_string post)
               = core ++ list_ascii_of_string post).
  { subst core. change ((first :: middle ++ [last]) ++ list_ascii_of_string post)
      with (first :: (middle ++ [last]) ++ list_ascii_of_string post).
    by apply skip_spaces_stop. }
  rewrite Hl, reverse_app.
  rewrite skip_spaces_blank by (by rewrite forallb_reverse).
  assert (Hr : reverse core = last :: reverse (first :: middle)).
  { subst core. change (first :: middle ++ [last]) with ((first :: middle) ++ [last]).
    by rewrite reverse_app. }
  rewrite Hr, skip_spaces_stop by done. by rewrite <- Hr, reverse_involutive.
Qed.

(** Stripping removes the white space around a case variant of a
    directive. *)
Lemma strip_padded_directive (pre core post cmd : string) :
  command_literal cmd → PyStr.lower core = cmd →
  blank pre = true → blank post = true →
  PyStr.strip (pre +:+ core +:+ post) = core.
Proof.
  intros [-> | [-> | ->]] Hcore Hpre Hpost.
  - destruct core as [|c1 [|c2 [|c3 [|c4 [|c5 [|c6 [|c7 r]]]]]]]; try discriminate Hcore.
    cbn in Hcore. injection Hcore as H1 H2 H3 H4 H5 H6.
    apply (strip_padded pre post c1 c6 [c2; c3; c4; c5]); try done.
    + intros l. by apply (directive_byte c1 _ l H1).
    + intros l. by apply (directive_byte c6 _ l H6).
  - destruct core as [|c1 [|c2 [|c3 [|c4 [|c5 [|c6 r]]]]]]; try discriminate Hcore.
    cbn in Hcore. injection Hcore as H1 H2 H3 H4 H5.
    apply (strip_padded pre post c1 c5 [c2; c3; c4]); try done.
    + intros l. by apply (directive_byte c1 _ l H1).
    + intros l. by apply (directive_byte c5 _ l H5).
  - destruct core as [|c1 [|c2 [|c3 [|c4 [|c5 [|c6 r]]]]]]; try discriminate Hcore.
    cbn in Hcore. injection Hcore as H1 H2 H3 H4 H5.
    apply (strip_padded pre post c1 c5 [c2; c3; c4]); try done.
    + intros l. by apply (directive_byte c1 _ l H1).
    + intros l. by apply (directive_byte c5 _ l H5).
Qed.

End strings.

(** *** Directives *)

Lemma command_literal_is_command (msg : string) :
  is_command msg = true ↔ command_literal (PyStr.lower msg).
Proof.
  unfold is_command, command_literal.
  rewrite !orb_true_iff, !String.eqb_eq. tauto.
Qed.

Lemma command_literal_fixed (cmd : string) :
  command_literal cmd → PyStr.lower (PyStr.strip cmd) = cmd.
Proof. by intros [-> | [-> | ->]]. Qed.

(** The webhook handles a text that is a directive once trimmed and
    lowercased as it handles the directive itself, up to the text quoted in
    the "Received" event. *)
Lemma webhook_directive env From w body cmd :
  command_literal cmd →
  PyStr.lower (PyStr.strip body) = cmd →
  ∃ user_name w1,
    get_user_name env (default "" From) w = (Ok user_name, w1) ∧
    let reply := command_reply cmd (default "" From) w1 in
    let after := command_effect cmd (default "" From) w1 in
    whatsapp_webhook env (Some body) From w =
      (Ok reply,
       set_message_queue
         (message_queue w ++
            [received_event (now env) user_name (PyStr.strip body);
             sent_event (now env) user_name reply]) after) ∧
    whatsapp_webhook env (Some cmd) From w =
      (Ok reply,
       set_message_queue
         (message_queue w ++
            [received_event (now env) user_name cmd;
             sent_event (now env) user_name reply]) after).
Proof.
  intros Hlit Hbody. pose proof (command_literal_fixed cmd Hlit) as Hcmd.
  unfold whatsapp_webhook. cbn [default from_option id].
  set (sender := from_option id "" From).
  assert (H1 : is_command (PyStr.strip body) = true).
  { apply command_literal_is_command. by rewrite Hbody. }
  assert (H2 : is_command (PyStr.strip cmd) = true).
  { apply command_literal_is_command. by rewrite Hcmd. }
  destruct (process_message_command env sender _ w H1)
    as (name & w1 & Hg & (_ & _ & _ & _ & Hq & _) & Hpm1).
  destruct (process_message_command env sender _ w H2)
    as (name' & w1' & Hg' & _ & Hpm2).
  rewrite Hg in Hg'. injection Hg' as <- <-.
  cbn zeta in Hpm1, Hpm2. rewrite Hbody, Hq in Hpm1. rewrite Hcmd, Hq in Hpm2.
  assert (Hs : PyStr.strip cmd = cmd) by (by destruct Hlit as [-> | [-> | ->]]).
  rewrite Hs in Hpm2 |- *.
  exists name, w1. cbn zeta. by rewrite Hpm1, Hpm2.
Qed.

(** C4: a directive typed in any case and with white space around it is
    matched as the directive itself.  For [" !CLEAR "] and ["!clear"] (and
    likewise ["!help"], ["!info"]) the webhook gives the same reply, the
    one of the directive, and leaves the same conversation store, user
    directory, configuration and request trace, those the directive
    leaves; the event queue receives the same "Sent" event, after a
    "Received" event that quotes the trimmed text as it was typed. *)
Theorem C4_command_matching env From w pre core post cmd :
  command_literal cmd →
  PyStr.lower core = cmd →
  blank pre = true → blank post = true →
  ∃ user_name w1,
    get_user_name env (default "" From) w = (Ok user_name, w1) ∧
    let reply :=
      if String.eqb cmd "!clear" then
        match conversations w !! default "" From with
        | Some _ => "Conversation history cleared. What would you like to talk about?"
        | None => "No conversation history found."
        end
      else if String.eqb cmd "!help" then help_text
      else info_text (config w) in
    let after :=
      if String.eqb cmd "!clear" then (clear_conversation (default "" From) w1).2
      else w1 in
    whatsapp_webhook env (Some (pre +:+ core +:+ post)) From w =
      (Ok reply,
       set_message_queue
         (message_queue w ++
            [received_event (now env) user_name core;
             sent_event (now env) user_name reply]) after) ∧
    whatsapp_webhook env (Some cmd) From w =
      (Ok reply,
       set_message_queue
         (message_queue w ++
            [received_event (now env) user_name cmd;
             sent_event (now env) user_name reply]) after).
Proof.
  intros Hlit Hcore Hpre Hpost.
  pose proof (strip_padded_directive pre core post cmd Hlit Hcore Hpre Hpost) as Hstrip.
  destruct (webhook_directive env From w (pre +:+ core +:+ post) cmd Hlit)
    as (name & w1 & Hg & H); [by rewrite Hstrip|].
  rewrite Hstrip in H. cbn zeta in H. exists name, w1. split; [done|]. cbn zeta.
  assert (Hs : same_store w w1).
  { destruct (process_message_enter env (default "" From) cmd w)
      as (name' & w1' & Hg' & Hs & _). rewrite Hg in Hg'. by injection Hg' as <- <-. }
  destruct Hs as (Hc & Hv & _).
  unfold command_reply, command_effect, clear_reply in H.
  rewrite clear_conversation_eq. cbn [snd]. by rewrite Hc, Hv in H.
Qed.

Lemma C4_command_matching_witness :
  ∃ user_name w1,
    get_user_name env_twilio "A" bot_after_hello = (Ok user_name, w1) ∧
    whatsapp_webhook env_twilio (Some " !CLEAR ") (Some "A") bot_after_hello =
      (Ok "Conversation history cleared. What would you like to talk about?",
       set_message_queue
         (message_queue bot_after_hello ++
            [received_event (now env_twilio) user_name "!CLEAR";
             sent_event (now env_twilio) user_name
               "Conversation history cleared. What would you like to talk about?"])
         (clear_conversation "A" w1).2) ∧
    whatsapp_webhook env_twilio (Some "!clear") (Some "A") bot_after_hello =
      (Ok "Conversation history cleared. What would you like to talk about?",
       set_message_queue
         (message_queue bot_after_hello ++
            [received_event (now env_twilio) user_name "!clear";
             sent_event (now env_twilio) user_name
               "Conversation history cleared. What would you like to talk about?"])
         (clear_conversation "A" w1).2).
Proof.
  apply (C4_command_matching env_twilio (Some "A") bot_after_hello
           " " "!CLEAR" " " "!clear").
  - left. reflexivity.
  - reflexivity.
  - reflexivity.
  - reflexivity.
Defined.

(** The two deliveries do not leave the same state: the replies agree, the
    event queues do not, the "Received" event quoting ["!CLEAR"] in one and
    ["!clear"] in the other. *)
Lemma C4_received_event_differs :
  (whatsapp_webhook env_twilio (Some " !CLEAR ") (Some "A") bot_after_hello).1 =
    (whatsapp_webhook env_twilio (Some "!clear") (Some "A") bot_after_hello).1 ∧
  (whatsapp_webhook env_twilio (Some " !CLEAR ") (Some "A") bot_after_hello).2 ≠
    (whatsapp_webhook env_twilio (Some "!clear") (Some "A") bot_after_hello).2 ∧
  message_queue
    (whatsapp_webhook env_twilio (Some " !CLEAR ") (Some "A") bot_after_hello).2 =
    message_queue bot_after_hello ++
      ["[2024-05-01 12:00:00] Received from A: !CLEAR";
       "[2024-05-01 12:00:00] Sent to A: Conversation history cleared. What would you like to talk about?"] ∧
  message_queue
    (whatsapp_webhook env_twilio (Some "!clear") (Some "A") bot_after_hello).2 =
    message_queue bot_after_hello ++
      ["[2024-05-01 12:00:00] Received from A: !clear";
       "[2024-05-01 12:00:00] Sent to A: Conversation history cleared. What would you like to talk about?"].
Proof.
  split; [by vm_compute|]. split; [|split; by vm_compute].
  intros H. apply (f_equal message_queue) in H. vm_compute in H. discriminate H.
Qed.

(** C5: a text that is one of the three directives once trimmed and
    lowercased never reaches the completion service; any other text is no
    directive, whatever it contains, and with a credential configured the
    service is called once, with a history that ends in that text as the
    user turn (without a credential the reply is the warning). *)
Theorem C5_command_precedence env Body From w :
  wf_world w →
  (is_command (PyStr.strip (default "" Body)) = true ↔
     command_literal (PyStr.lower (PyStr.strip (default "" Body)))) ∧
  if is_command (PyStr.strip (default "" Body)) then
    requests (whatsapp_webhook env Body From w).2 = requests w
  else if PyStr.truthy (api_key w) then
    ∃ req, requests (whatsapp_webhook env Body From w).2 = requests w ++ [req] ∧
           last (req_messages req) = Some (user_turn (PyStr.strip (default "" Body)))
  else
    (whatsapp_webhook env Body From w).1 = Ok api_key_warning ∧
    requests (whatsapp_webhook env Body From w).2 = requests w.
Proof.
  intros Hwf. unfold whatsapp_webhook.
  set (msg := PyStr.strip (default "" Body)). set (sender := default "" From).
  split; [apply command_literal_is_command|].
  destruct (is_command msg) eqn:Hcmd.
  - destruct (process_message_command env sender msg w Hcmd)
      as (name & w1 & _ & (_ & _ & _ & _ & _ & Hr) & Hpm).
    cbn zeta in Hpm. rewrite Hpm. cbn [snd requests set_message_queue].
    rewrite <- Hr. unfold command_effect, cleared. by repeat case_match.
  - destruct (PyStr.truthy (api_key w)) eqn:Hkey.
    + eexists. split; [by apply request_reached|].
      cbn [chat_request req_messages]. unfold pending. by rewrite last_snoc.
    + destruct (process_message_chat env sender msg w Hwf Hcmd)
        as (name & w' & _ & _ & _ & Hspec). cbn zeta in Hspec.
      rewrite Hkey in Hspec. cbn [negb] in Hspec.
      destruct Hspec as (-> & Hr & _). by cbn.
Qed.

Lemma C5_command_precedence_witness :
  ¬ command_literal (PyStr.lower "!clear please") ∧
  (∃ req, requests (whatsapp_webhook (env_answering "Hi!") (Some " !clear please ")
                      (Some "A") bot_with_key).2 = requests bot_with_key ++ [req] ∧
          last (req_messages req) = Some (user_turn "!clear please")) ∧
  requests (whatsapp_webhook (env_answering "Hi!") (Some " !Help ") (Some "A")
              bot_with_key).2 = requests bot_with_key.
Proof.
  split; [|split].
  - intros Hlit.
    apply (proj1 (C5_command_precedence (env_answering "Hi!") (Some " !clear please ")
                    (Some "A") bot_with_key (wf_new_bot _ _ _))) in Hlit.
    discriminate Hlit.
  - exact (proj2 (C5_command_precedence (env_answering "Hi!") (Some " !clear please ")
                    (Some "A") bot_with_key (wf_new_bot _ _ _))).
  - exact (proj2 (C5_command_precedence (env_answering "Hi!") (Some " !Help ")
                    (Some "A") bot_with_key (wf_new_bot _ _ _))).
Defined.

(** C6: fetching the history after a clear yields a one-element list whose
    entry has role system; the [!clear] directive answers "Conversation
    history cleared. What would you like to talk about?" exactly when the
    user had a history, which is then the seed alone, and "No conversation
    history found." when the user had none. *)
Theorem C6_clear env user_id w :
  (∃ r w1 l w2 m,
     clear_conversation user_id w = (Ok r, w1) ∧
     get_conversation_history user_id w1 = (Ok l, w2) ∧
     heap w2 !! l = Some [m] ∧ role m = system ∧
     history w2 user_id = Some [m]) ∧
  (∀ user_message,
     PyStr.lower user_message = "!clear" →
     ∃ reply w',
       process_message env user_id user_message w = (Ok reply, w') ∧
       (reply = "Conversation history cleared. What would you like to talk about?"
          ↔ is_Some (conversations w !! user_id)) ∧
       (reply = "No conversation history found."
          ↔ conversations w !! user_id = None) ∧
       match conversations w !! user_id with
       | Some _ => history w' user_id = Some [seed_message]
       | None => conversations w' !! user_id = None
       end).
Proof.
  split.
  - rewrite clear_conversation_eq. unfold cleared, get_conversation_history. run.
    destruct (conversations w !! user_id) as [l0|] eqn:Hc.
    + eexists _, _, (length (heap w)), _, seed_message. split; [reflexivity|].
      cbn [conversations set_conversations set_heap].
      rewrite lookup_insert_eq. split; [reflexivity|].
      unfold history. cbn [conversations heap set_conversations set_heap].
      rewrite lookup_insert_eq, lookup_app_r by lia. by rewrite Nat.sub_diag.
    + eexists _, _, (length (heap w)), _, seed_message. split; [reflexivity|].
      rewrite Hc. run. split; [reflexivity|].
      unfold history. cbn [conversations heap set_conversations set_heap].
      rewrite lookup_insert_eq, lookup_app_r by lia. by rewrite Nat.sub_diag.
  - intros msg Hmsg.
    assert (Hcmd : is_command msg = true).
    { apply command_literal_is_command. rewrite Hmsg. by left. }
    destruct (process_message_command env user_id msg w Hcmd)
      as (name & w1 & _ & (_ & Hc & Hh & _) & Hpm).
    cbn zeta in Hpm. rewrite Hmsg in Hpm.
    eexists _, _. split; [exact Hpm|].
    unfold command_reply, command_effect, clear_reply, cleared, history.
    cbn [String.eqb Ascii.eqb Bool.eqb andb conversations heap set_message_queue].
    rewrite Hc, Hh. destruct (conversations w !! user_id) as [l0|] eqn:Hl.
    + cbn [conversations heap set_conversations set_heap].
      rewrite lookup_insert_eq, lookup_app_r by lia. rewrite Nat.sub_diag.
      repeat split; try done.
    + rewrite Hc, Hl. repeat split; try done.
Qed.

Lemma C6_clear_witness :
  ∃ reply w',
    process_message (env_answering "Hi!") "A" "!Clear"
      (process_message (env_answering "Hi!") "A" "Hello" bot_with_key).2 = (Ok reply, w') ∧
    (reply = "Conversation history cleared. What would you like to talk about?"
       ↔ is_Some (conversations
                    (process_message (env_answering "Hi!") "A" "Hello" bot_with_key).2
                  !! "A")) ∧
    (reply = "No conversation history found."
       ↔ conversations (process_message (env_answering "Hi!") "A" "Hello" bot_with_key).2
         !! "A" = None) ∧
    match conversations (process_message (env_answering "Hi!") "A" "Hello" bot_with_key).2
          !! "A" with
    | Some _ => history w' "A" = Some [seed_message]
    | None => conversations w' !! "A" = None
    end.
Proof.
  apply (proj2 (C6_clear (env_answering "Hi!") "A"
                  (process_message (env_answering "Hi!") "A" "Hello" bot_with_key).2)
           "!Clear").
  reflexivity.
Defined.

(** *** The user directory *)

Lemma fallback_name_prefix (rest : string) :
  fallback_name ("whatsapp:" +:+ rest) = fallback_name rest.
Proof.
  unfold fallback_name, PyStr.replace. cbn.
  destruct rest; reflexivity.
Qed.

(** C8, as the code has it: for an identifier the directory does not
    hold, [get_user_name] returns the identifier with every "whatsapp:"
    removed.  It records that name, and writes the directory to its file,
    only when both Twilio credentials are set and the client is
    constructed; otherwise the directory is left as it was.  A recorded
    identifier is answered from the directory, unchanged, by every later
    call. *)
Theorem C8_resolve env user_id w :
  user_details w !! user_id = None →
  ∃ w', get_user_name env user_id w = (Ok (fallback_name user_id), w') ∧
    (∀ rest, user_id = "whatsapp:" +:+ rest →
             fallback_name user_id = fallback_name rest) ∧
    if records_name env then
      user_details w' = <[user_id := fallback_name user_id]> (user_details w) ∧
      (file_writable env = true → user_file w' = Some (user_details w')) ∧
      (∀ env', get_user_name env' user_id w' = (Ok (fallback_name user_id), w'))
    else w' = w.
Proof.
  intros Hnone. destruct (records_name env) eqn:Hrec.
  - eexists. split; [by apply get_user_name_recorded|].
    split; [by intros rest ->; apply fallback_name_prefix|].
    destruct (file_writable env); cbn; (split; [done|]); (split; [done|]);
      intros env'; apply get_user_name_known; cbn; by rewrite lookup_insert_eq.
  - exists w. split; [by apply get_user_name_unrecorded|].
    split; [by intros rest ->; apply fallback_name_prefix | done].
Qed.

Lemma C8_resolve_witness :
  ∃ w', get_user_name env_twilio "whatsapp:+15551234567" bot_with_key
          = (Ok (fallback_name "whatsapp:+15551234567"), w') ∧
    (∀ rest, "whatsapp:+15551234567" = "whatsapp:" +:+ rest →
             fallback_name "whatsapp:+15551234567" = fallback_name rest) ∧
    if records_name env_twilio then
      user_details w' =
        <["whatsapp:+15551234567" := fallback_name "whatsapp:+15551234567"]>
          (user_details bot_with_key) ∧
      (file_writable env_twilio = true → user_file w' = Some (user_details w')) ∧
      (∀ env', get_user_name env' "whatsapp:+15551234567" w'
               = (Ok (fallback_name "whatsapp:+15551234567"), w'))
    else w' = bot_with_key.
Proof.
  apply (C8_resolve env_twilio "whatsapp:+15551234567" bot_with_key).
  reflexivity.
Defined.

(** C8 as stated fails: with no Twilio credential in the environment the
    derived name is returned but neither stored nor written to the file. *)
Lemma C8_not_recorded :
  user_details bot_with_key !! "whatsapp:+15551234567" = None ∧
  (get_user_name (env_answering "Hi!") "whatsapp:+15551234567" bot_with_key).1
    = Ok "+15551234567" ∧
  user_details (get_user_name (env_answering "Hi!") "whatsapp:+15551234567" bot_with_key).2
    !! "whatsapp:+15551234567" = None ∧
  user_file (get_user_name (env_answering "Hi!") "whatsapp:+15551234567" bot_with_key).2
    = None.
Proof. vm_compute. repeat split. Qed.

(** C10: for a user without history a directive returns its reply and
    leaves the conversation store as it was, without an entry for the user;
    a message that is no directive creates the entry. *)
Theorem C10_commands_create_no_history env user_id user_message w :
  wf_world w →
  conversations w !! user_id = None →
  if is_command user_message then
    ∃ w', process_message env user_id user_message w =
            (Ok (if String.eqb (PyStr.lower user_message) "!clear"
                 then "No conversation history found."
                 else if String.eqb (PyStr.lower user_message) "!help"
                 then help_text
                 else info_text (config w)), w') ∧
          conversations w' = conversations w ∧ heap w' = heap w ∧
          conversations w' !! user_id = None
  else
    is_Some (conversations (process_message env user_id user_message w).2 !! user_id) ∧
    is_Some (history (process_message env user_id user_message w).2 user_id).
Proof.
  intros Hwf Hnone. destruct (is_command user_message) eqn:Hcmd.
  - destruct (process_message_command env user_id user_message w Hcmd)
      as (name & w1 & _ & (Hcfg & Hc & Hh & _) & Hpm).
    cbn zeta in Hpm. eexists. split.
    + rewrite Hpm. f_equal. f_equal. unfold command_reply, clear_reply.
      by rewrite Hc, Hnone, Hcfg.
    + unfold command_effect, cleared. rewrite Hc, Hnone.
      cbn [conversations heap set_message_queue].
      destruct (String.eqb _ _); by rewrite Hc, Hh, Hnone.
  - assert (Hsome : is_Some (history (process_message env user_id user_message w).2 user_id)).
    { destruct (process_message_chat env user_id user_message w Hwf Hcmd)
        as (name & w' & _ & _ & _ & Hspec). cbn zeta in Hspec.
      destruct (negb _).
      - destruct Hspec as (Hpm & _ & Hh & _). rewrite Hpm. cbn [snd].
        rewrite Hh. by eexists.
      - destruct Hspec as (_ & Hspec).
        destruct (completion _); destruct Hspec as (Hpm & Hh & _);
          rewrite Hpm; cbn [snd]; rewrite Hh; by eexists. }
    split; [|done]. unfold history in Hsome.
    destruct (conversations (process_message env user_id user_message w).2 !! user_id)
      eqn:E; [by eexists | by destruct Hsome].
Qed.

Lemma C10_commands_create_no_history_witness :
  (∃ w', process_message (env_answering "Hi!") "A" "!INFO" bot_with_key =
           (Ok (info_text (config bot_with_key)), w') ∧
         conversations w' = conversations bot_with_key ∧
         heap w' = heap bot_with_key ∧
         conversations w' !! "A" = None) ∧
  (∃ w', process_message (env_answering "Hi!") "A" "!Clear" bot_with_key =
           (Ok "No conversation history found.", w') ∧
         conversations w' = conversations bot_with_key ∧
         heap w' = heap bot_with_key ∧
         conversations w' !! "A" = None) ∧
  is_Some (conversations (process_message (env_answering "Hi!") "A" "Hello" bot_with_key).2
           !! "A") ∧
  is_Some (history (process_message (env_answering "Hi!") "A" "Hello" bot_with_key).2 "A").
Proof.
  split; [|split].
  - exact (C10_commands_create_no_history (env_answering "Hi!") "A" "!INFO" bot_with_key
             (wf_new_bot _ _ _) eq_refl).
  - exact (C10_commands_create_no_history (env_answering "Hi!") "A" "!Clear" bot_with_key
             (wf_new_bot _ _ _) eq_refl).
  - exact (C10_commands_create_no_history (env_answering "Hi!") "A" "Hello" bot_with_key
             (wf_new_bot _ _ _) eq_refl).
Defined.

(** * Further properties of the code *)

(** ** Reasoning rules for the monad *)

Section rules.
Context {A B : Type}.
Implicit Types (P : World → Prop) (R : Exn → World → Prop).

Lemma triple_ret P (a : A) (Q : A → World → Prop) R :
  (∀ w, P w → Q a w) → triple P (mret a) Q R.
Proof. intros H w Hw. by apply H. Qed.

Lemma triple_raise P (e : Exn) (Q : A → World → Prop) R :
  (∀ w, P w → R e w) → triple P (raise e) Q R.
Proof. intros H w Hw. by apply H. Qed.

Lemma triple_bind P (m : M A) (k : A → M B) (Q : A → World → Prop)
    (Q' : B → World → Prop) R :
  triple P m Q R → (∀ a, triple (Q a) (k a) Q' R) → triple P (m ≫= k) Q' R.
Proof.
  intros Hm Hk w Hw. specialize (Hm w Hw). unfold mbind, M_bind.
  destruct (m w) as [[a|e] w']; [by apply Hk | done].
Qed.

Lemma triple_gets P (f : World → A) R :
  triple P (gets f) (λ a w, P w ∧ a = f w) R.
Proof. by intros w Hw. Qed.

Lemma triple_weaken P P' (m : M A) (Q Q' : A → World → Prop) R R' :
  triple P' m Q' R' →
  (∀ w, P w → P' w) → (∀ a w, Q' a w → Q a w) → (∀ e w, R' e w → R e w) →
  triple P m Q R.
Proof.
  intros Hm HP HQ HR w Hw. specialize (Hm w (HP w Hw)).
  destruct (m w) as [[a|e] w']; [by apply HQ | by apply HR].
Qed.

Lemma triple_try_except P (body : M A) (handler : Exn → M A)
    (Q : A → World → Prop) (R' R : Exn → World → Prop) :
  triple P body Q R' → (∀ e, triple (R' e) (handler e) Q R) →
  triple P (try_except body handler) Q R.
Proof.
  intros Hb Hh w Hw. specialize (Hb w Hw). unfold try_except.
  destruct (body w) as [[a|e] w']; [done | by apply Hh].
Qed.

End rules.

Lemma triple_modify P (f : World → World) (Q : unit → World → Prop) R :
  (∀ w, P w → Q tt (f w)) → triple P (modify f) Q R.
Proof. intros H w Hw. by apply H. Qed.

(** ** The invariant of the conversation store *)

Lemma well_seeded_seed : well_seeded [seed_message].
Proof. by exists []. Qed.

Lemma well_seeded_snoc h m : well_seeded h → role m ≠ system → well_seeded (h ++ [m]).
Proof.
  intros (t & -> & Ht) Hm. exists (t ++ [m]). split; [done|].
  apply Forall_app. split; [done | by constructor].
Qed.

Lemma well_seeded_trim h : well_seeded h → well_seeded (trim h).
Proof.
  intros (t & -> & Ht). unfold trim.
  destruct (20 <? length (seed_message :: t))%nat eqn:Hlen; [|by exists t].
  apply Nat.ltb_lt in Hlen. cbn [length] in *.
  replace (S (length t) - 19) with (S (length t - 19)) by lia.
  cbn [take drop app]. eexists. split; [reflexivity|]. by apply Forall_drop.
Qed.

Lemma store_inv_new_bot cfg key file : store_inv (new_bot cfg key file).
Proof.
  split; [apply wf_new_bot|]. split.
  - intros u1 u2 l H. cbn in H. by rewrite lookup_empty in H.
  - intros u h. unfold history. cbn. by rewrite lookup_empty.
Qed.

(** The invariant reads the references and the lists only. *)
Lemma store_inv_ext w w' :
  conversations w' = conversations w → heap w' = heap w →
  store_inv w → store_inv w'.
Proof.
  intros Hc Hh (Hwf & Hun & Hseed). split; [|split].
  - unfold wf_world. by rewrite Hc, Hh.
  - unfold unshared. by rewrite Hc.
  - intros u h. rewrite (history_ext w w' u Hc Hh). apply Hseed.
Qed.

Section store_steps.
Context (user_id other : string) (kept : option (list Message)).

Local Abbreviation framed := (framed user_id other kept).

Lemma framed_ext w w' :
  conversations w' = conversations w → heap w' = heap w → framed w → framed w'.
Proof.
  intros Hc Hh [Hinv Hk]. split; [by eapply store_inv_ext|].
  by rewrite (history_ext w w' other Hc Hh).
Qed.

(** A fresh list becomes the history of [user_id]. *)
Lemma framed_alloc w items :
  framed w → well_seeded items →
  framed (set_conversations (<[user_id := length (heap w)]> (conversations w))
            (set_heap (heap w ++ [items]) w)).
Proof.
  intros [(Hwf & Hun & Hseed) Hk] Hitems.
  assert (Hold : ∀ u l, u ≠ user_id → conversations w !! u = Some l →
            (heap w ++ [items]) !! l = heap w !! l ∧ l ≠ length (heap w)).
  { intros u l _ Hl. pose proof (Hwf u l Hl) as Hlt. cbn in Hlt.
    split; [by apply lookup_app_l | lia]. }
  split; [split; [by apply wf_alloc | split]|].
  - intros u1 u2 l. cbn [conversations set_conversations set_heap].
    rewrite !lookup_insert. repeat case_decide; subst; try done.
    + intros [= <-] H2. by destruct (Hold u2 _ ltac:(done) H2).
    + intros H1 [= <-]. by destruct (Hold u1 _ ltac:(done) H1).
    + apply Hun.
  - intros u h. unfold history. cbn [conversations heap set_conversations set_heap].
    rewrite lookup_insert. case_decide as Hu.
    + subst u. rewrite lookup_app_r by lia. rewrite Nat.sub_diag. by intros [= <-].
    + destruct (conversations w !! u) as [l|] eqn:Hl; [|done].
      destruct (Hold u l ltac:(done) Hl) as [-> _]. intros Hh. apply (Hseed u).
      unfold history. by rewrite Hl.
  - intros Hne. unfold history. cbn [conversations heap set_conversations set_heap].
    rewrite lookup_insert_ne by done.
    specialize (Hk Hne). unfold history in Hk.
    destruct (conversations w !! other) as [l|] eqn:Hl; [|done].
    by destruct (Hold other l Hne Hl) as [-> _].
Qed.

(** A turn is appended in place to the history of [user_id]. *)
Lemma framed_append w l m :
  framed w → conversations w !! user_id = Some l → role m ≠ system →
  framed (set_heap (alter (λ items, items ++ [m]) l (heap w)) w).
Proof.
  intros [(Hwf & Hun & Hseed) Hk] Hl Hm.
  split; [split; [by apply wf_alter | split]|].
  - exact Hun.
  - intros u h. unfold history. cbn [conversations heap set_heap].
    destruct (conversations w !! u) as [l'|] eqn:Hl'; [|done].
    destruct (decide (l' = l)) as [->|Hne].
    + rewrite list_lookup_alter_eq.
      destruct (heap w !! l) as [h0|] eqn:Hh0; [|done]. cbn. intros [= <-].
      apply well_seeded_snoc; [|done]. apply (Hseed u). unfold history.
      by rewrite Hl', Hh0.
    + rewrite list_lookup_alter_ne by done. intros Hh. apply (Hseed u).
      unfold history. by rewrite Hl'.
  - intros Hne. specialize (Hk Hne). unfold history in *.
    cbn [conversations heap set_heap].
    destruct (conversations w !! other) as [l'|] eqn:Hl'; [|done].
    rewrite list_lookup_alter_ne; [done|].
    intros Heq. apply Hne. apply (Hun other user_id l'); [done | by rewrite <- Heq].
Qed.

End store_steps.

Section chat_triples.
Context (user_id other : string) (kept : option (list Message)).
Local Abbreviation framed := (framed user_id other kept).
Local Abbreviation at_list := (at_list user_id other kept).

Lemma at_list_ext l w w' :
  conversations w' = conversations w → heap w' = heap w → at_list l w → at_list l w'.
Proof. intros Hc Hh [Hf Hl]. split; [by eapply framed_ext | by rewrite Hc]. Qed.

Lemma quiet_framed {A} (m : M A) :
  quiet m → triple framed m (λ _, framed) (λ _, framed).
Proof.
  intros Hq w Hw. destruct (Hq w) as [Hc Hh].
  destruct (m w) as [[a|e] w']; by eapply framed_ext.
Qed.

Lemma quiet_at_list {A} l (m : M A) :
  quiet m → triple (at_list l) m (λ _, at_list l) (λ _, framed).
Proof.
  intros Hq w Hw. destruct (Hq w) as [Hc Hh].
  destruct (m w) as [[a|e] w']; cbn [snd] in *.
  - by eapply at_list_ext.
  - destruct Hw as [Hf _]. by eapply framed_ext.
Qed.

Lemma quiet_put text : quiet (put text).
Proof. by intros w. Qed.

Lemma quiet_gets {A} (f : World → A) : quiet (gets f).
Proof. by intros w. Qed.

Lemma quiet_create env req : quiet (create env req).
Proof. intros w. unfold create. run. by destruct (ChatCompletion_create env req). Qed.

Lemma quiet_first_choice_content r : quiet (first_choice_content r).
Proof. intros w. unfold first_choice_content. by destruct (choices r). Qed.

Lemma quiet_get_user_name env : quiet (get_user_name env user_id).
Proof.
  intros w. destruct (get_user_name_returns env user_id w) as (name & w' & -> & Hs).
  cbn [snd]. by destruct Hs as (_ & -> & -> & _).
Qed.

Lemma fetch_triple R :
  triple framed (get_conversation_history user_id) at_list R.
Proof.
  intros w Hw. unfold get_conversation_history. run.
  destruct (conversations w !! user_id) as [l|] eqn:Hl; [done|]. run.
  split; [by apply framed_alloc, well_seeded_seed|].
  cbn. by rewrite lookup_insert_eq.
Qed.

Lemma append_triple l m R :
  role m ≠ system → triple (at_list l) (list_append l m) (λ _, at_list l) R.
Proof. intros Hm w [Hf Hl]. split; [by apply framed_append | done]. Qed.

Lemma read_triple l R :
  triple (at_list l) (read_list l)
    (λ items w, at_list l w ∧ heap w !! l = Some items) R.
Proof.
  intros w [Hf Hl]. split; [done|]. cbn.
  destruct Hf as [(Hwf & _) _]. by destruct (wf_lookup w user_id l Hwf Hl) as [h ->].
Qed.

(** The length test and the trimmed copy. *)
Lemma trim_triple l items R :
  triple (λ w, at_list l w ∧ heap w !! l = Some items)
    (if (20 <? length items)%nat then
       match items with
       | [] => raise (Exception "list index out of range")
       | first :: _ =>
           trimmed ← new_list ([first] ++ last_n 19 items);
           conversations_setitem user_id trimmed
       end
     else mret tt)
    (λ _, framed) R.
Proof.
  intros w [[Hf Hl] Hitems].
  destruct (20 <? length items)%nat eqn:Hlen; [|done].
  assert (Hs : well_seeded items).
  { destruct Hf as [(_ & _ & Hseed) _]. apply (Hseed user_id). unfold history.
    by rewrite Hl. }
  pose proof (well_seeded_trim items Hs) as Ht. unfold trim in Ht. rewrite Hlen in Ht.
  destruct Hs as (t & -> & _). run. by apply framed_alloc.
Qed.

Lemma process_chat_keeps env user_message user_name timestamp :
  keeps framed (process_chat env user_id user_message user_name timestamp).
Proof.
  unfold keeps, process_chat.
  eapply triple_bind; [apply fetch_triple|]. intros l.
  eapply triple_bind; [by apply append_triple|]. intros ?.
  eapply triple_bind; [apply quiet_at_list, quiet_gets|]. intros key.
  destruct (negb (PyStr.truthy key)).
  - eapply triple_bind; [apply quiet_at_list, quiet_put|]. intros ?.
    apply triple_ret. by intros w [Hf _].
  - eapply triple_bind; [apply quiet_at_list, quiet_put|]. intros ?.
    eapply triple_bind; [apply quiet_at_list, quiet_gets|]. intros cfg.
    eapply triple_bind; [apply quiet_at_list, quiet_gets|]. intros messages.
    eapply triple_bind; [apply quiet_at_list, quiet_create|]. intros response.
    eapply triple_bind; [apply quiet_at_list, quiet_first_choice_content|].
    intros assistant_message.
    eapply triple_bind; [by apply append_triple|]. intros ?.
    eapply triple_bind; [apply read_triple|]. intros items.
    eapply triple_bind; [apply trim_triple|]. intros ?.
    eapply triple_bind; [apply quiet_framed, quiet_put|]. intros ?.
    by apply triple_ret.
Qed.

Lemma clear_conversation_keeps : keeps framed (clear_conversation user_id).
Proof.
  intros w Hw. rewrite clear_conversation_eq. unfold cleared.
  destruct (conversations w !! user_id); [|done].
  by apply framed_alloc, well_seeded_seed.
Qed.

Lemma process_body_keeps env user_message user_name timestamp :
  keeps framed (process_body env user_id user_message user_name timestamp).
Proof.
  unfold keeps, process_body.
  eapply triple_bind; [apply quiet_framed, quiet_put|]. intros ?.
  destruct (String.eqb _ "!clear").
  { eapply triple_bind; [apply clear_conversation_keeps|]. intros response.
    eapply triple_bind; [apply quiet_framed, quiet_put|]. intros ?.
    by apply triple_ret. }
  destruct (String.eqb _ "!help").
  { eapply triple_bind; [apply quiet_framed, quiet_put|]. intros ?.
    by apply triple_ret. }
  destruct (String.eqb _ "!info").
  { eapply triple_bind; [apply quiet_framed, quiet_gets|]. intros cfg.
    eapply triple_bind; [apply quiet_framed, quiet_put|]. intros ?.
    by apply triple_ret. }
  apply process_chat_keeps.
Qed.

Lemma process_handler_keeps timestamp e : keeps framed (process_handler timestamp e).
Proof.
  unfold keeps, process_handler. destruct timestamp as [ts|].
  - eapply triple_bind; [apply quiet_framed, quiet_put|]. intros ?.
    by apply triple_ret.
  - by apply triple_raise.
Qed.

Lemma process_message_keeps env user_message :
  keeps framed (process_message env user_id user_message).
Proof.
  intros w Hw. unfold process_message.
  pose proof (quiet_framed _ (quiet_get_user_name env) w Hw) as Hg.
  destruct (get_user_name env user_id w) as [[name|e] w1].
  - apply (triple_try_except framed _ _ (λ _, framed) (λ _, framed) (λ _, framed));
      [apply process_body_keeps | intros e; apply process_handler_keeps | done].
  - by apply process_handler_keeps.
Qed.

End chat_triples.

(** ** Properties of the conversation store *)

Lemma store_inv_process_message env user_id user_message w :
  store_inv w → store_inv (process_message env user_id user_message w).2.
Proof.
  intros Hw.
  pose proof (process_message_keeps user_id user_id None env user_message w) as H.
  destruct (process_message env user_id user_message w) as [[a|e] w'];
    apply H; by split.
Qed.

(** X1: whatever is delivered to the webhook of a new bot, and whatever
    the outside answers, each stored history is the system seed followed
    by turns none of which is a system message, and no two users share a
    history. *)
Theorem X1_store_invariant cfg key file ds :
  let w := deliver ds (new_bot cfg key file) in
  (∀ u h, history w u = Some h →
          ∃ t, h = seed_message :: t ∧ Forall (λ m, role m ≠ system) t) ∧
  (∀ u1 u2 l, conversations w !! u1 = Some l → conversations w !! u2 = Some l →
              u1 = u2).
Proof.
  cbn zeta.
  assert (H : ∀ w, store_inv w → store_inv (deliver ds w)).
  { induction ds as [|d ds IH]; intros w Hw; [done|]. cbn [deliver]. apply IH.
    unfold whatsapp_webhook. by apply store_inv_process_message. }
  destruct (H _ (store_inv_new_bot cfg key file)) as (_ & Hun & Hseed). by split.
Qed.

(** X2: a call for one user leaves the stored history of every other
    user as it was. *)
Theorem X2_other_users_untouched env user_id user_message other w :
  store_inv w → other ≠ user_id →
  history (process_message env user_id user_message w).2 other = history w other.
Proof.
  intros Hw Hne.
  pose proof (process_message_keeps user_id other (history w other) env user_message w)
    as H.
  destruct (process_message env user_id user_message w) as [[a|e] w'];
    by apply H.
Qed.

Lemma X2_other_users_untouched_witness :
  history (process_message (env_failing "timeout") "B" "Hey" bot_after_hello).2 "A"
    = history bot_after_hello "A".
Proof.
  apply (X2_other_users_untouched (env_failing "timeout") "B" "Hey" "A" bot_after_hello).
  - apply store_inv_process_message, store_inv_new_bot.
  - discriminate.
Defined.

(** X3: a call only appends to the event queue.  It adds the "Received"
    event first; then either the "Sent" event with the reply it returns,
    or a "Processing" event followed by that "Sent" event or by the "ERROR"
    event of the failure it reports. *)
Theorem X3_events env user_id user_message w :
  wf_world w →
  ∃ reply user_name events w',
    process_message env user_id user_message w = (Ok reply, w') ∧
    message_queue w' =
      message_queue w ++ received_event (now env) user_name user_message :: events ∧
    call_events env user_name reply events.
Proof.
  intros Hwf. destruct (is_command user_message) eqn:Hcmd.
  - destruct (process_message_command env user_id user_message w Hcmd)
      as (name & w1 & _ & (_ & _ & _ & _ & Hq & _) & Hpm). cbn zeta in Hpm.
    eexists _, name, _, _. split; [exact Hpm|]. cbn [message_queue set_message_queue].
    rewrite Hq. split; [reflexivity | constructor].
  - destruct (process_message_chat env user_id user_message w Hwf Hcmd)
      as (name & w' & _ & _ & _ & Hspec). cbn zeta in Hspec.
    destruct (negb _).
    + destruct Hspec as (Hpm & _ & _ & Hq).
      eexists _, name, _, _. split; [exact Hpm|]. split; [exact Hq | constructor].
    + destruct Hspec as (_ & Hspec). destruct (completion _) as [e|a].
      * destruct Hspec as (Hpm & _ & Hq).
        eexists _, name, _, _. split; [exact Hpm|]. split; [exact Hq|].
        by apply events_failed.
      * destruct Hspec as (Hpm & _ & Hq).
        eexists _, name, _, _. split; [exact Hpm|]. split; [exact Hq | constructor].
Qed.

Lemma X3_events_witness :
  ∃ reply user_name events w',
    process_message (env_failing "timeout") "A" "Hello" bot_with_key = (Ok reply, w') ∧
    message_queue w' =
      message_queue bot_with_key ++
        received_event (now (env_failing "timeout")) user_name "Hello" :: events ∧
    call_events (env_failing "timeout") user_name reply events.
Proof.
  apply (X3_events (env_failing "timeout") "A" "Hello" bot_with_key).
  apply wf_new_bot.
Defined.

(** Without a credential a chat message adds its user turn and nothing
    else changes in what the next call reads. *)
Lemma no_credential_step env user_id user_message w :
  wf_world w → PyStr.truthy (api_key w) = false → is_command user_message = false →
  let w' := (process_message env user_id user_message w).2 in
  wf_world w' ∧ PyStr.truthy (api_key w') = false ∧ requests w' = requests w ∧
  history w' user_id =
    Some (default [seed_message] (history w user_id) ++ [user_turn user_message]).
Proof.
  intros Hwf Hkey Hcmd.
  destruct (process_message_chat env user_id user_message w Hwf Hcmd)
    as (name & w' & Hwf' & _ & Hkey' & Hspec). cbn zeta in Hspec.
  rewrite Hkey in Hspec. cbn [negb] in Hspec. destruct Hspec as (Hpm & Hr & Hh & _).
  cbn zeta. rewrite Hpm. cbn [snd]. by rewrite Hkey'.
Qed.

(** X4: without a credential the history is never trimmed: N chat
    messages of a user add N entries to the stored history, whatever its
    length, and no request is sent. *)
Theorem X4_growth_without_credential user_id turns w :
  wf_world w → PyStr.truthy (api_key w) = false →
  Forall (λ t, is_command t.2 = false) turns →
  requests (run_turns user_id turns w) = requests w ∧
  length (default [seed_message] (history (run_turns user_id turns w) user_id)) =
    length (default [seed_message] (history w user_id)) + length turns.
Proof.
  revert w. induction turns as [|[env msg] rest IH]; intros w Hwf Hkey Hall.
  - cbn. split; [done | lia].
  - apply Forall_cons in Hall as [Hcmd Hall]. cbn in Hcmd.
    destruct (no_credential_step env user_id msg w Hwf Hkey Hcmd)
      as (Hwf' & Hkey' & Hr & Hh).
    cbn [run_turns]. destruct (IH _ Hwf' Hkey' Hall) as [IHr IHl].
    rewrite IHr, IHl, Hr, Hh. split; [done|].
    cbn [default from_option id]. rewrite length_app. cbn [length]. lia.
Qed.

Lemma X4_growth_without_credential_witness :
  requests (run_turns "A" (replicate 25 (env_answering "Hi!", "Hello")) bot_without_key)
    = requests bot_without_key ∧
  length (default [seed_message]
            (history (run_turns "A" (replicate 25 (env_answering "Hi!", "Hello"))
                        bot_without_key) "A")) =
    length (default [seed_message] (history bot_without_key "A")) +
    length (replicate 25 (env_answering "Hi!", "Hello")).
Proof.
  apply (X4_growth_without_credential "A" (replicate 25 (env_answering "Hi!", "Hello"))
           bot_without_key).
  - apply wf_new_bot.
  - reflexivity.
  - repeat constructor.
Defined.

Lemma wf_run_turns user_id turns : ∀ w,
  wf_world w → wf_world (run_turns user_id turns w).
Proof.
  induction turns as [|[env msg] rest IH]; intros w Hw; [done|].
  cbn [run_turns]. apply IH.
  by destruct (process_message_returns env user_id msg w Hw) as (r & w' & -> & Hw').
Qed.

(** X5: an answered chat message leaves at most 20 entries, however long
    the stored history had grown: two more than before, cut back to 20. *)
Theorem X5_answer_caps_history env user_id user_message w a :
  wf_world w →
  gateway_succeeded env user_id user_message w a →
  ∃ h, history (process_message env user_id user_message w).2 user_id = Some h ∧
       length h = min (length (default [seed_message] (history w user_id)) + 2) 20 ∧
       last h = Some (assistant_turn a).
Proof.
  intros Hwf Ha.
  eexists. split; [by apply gateway_succeeded_history|]. split.
  - rewrite trim_length, length_app. cbn [length]. lia.
  - set (h0 := default [seed_message] (history w user_id)).
    unfold trim. case_match.
    + rewrite last_app. cbn [length].
      assert (Hlen : (20 < length (h0 ++ [user_turn user_message; assistant_turn a]))%nat)
        by by apply Nat.ltb_lt.
      rewrite length_app in Hlen |- *. cbn [length] in Hlen |- *.
      replace (length h0 + 2 - 19) with (length h0 - 17) by lia.
      rewrite drop_app_le by lia.
      rewrite last_app. by cbn.
    + rewrite last_app. by cbn.
Qed.

Lemma X5_answer_caps_history_witness :
  ∃ h, history (process_message (env_answering "Hi!") "A" "again"
                  (run_turns "A" (replicate 25 (env_failing "timeout", "Hello"))
                     bot_with_key)).2 "A" = Some h ∧
       length h =
         min (length (default [seed_message]
                        (history (run_turns "A" (replicate 25 (env_failing "timeout", "Hello"))
                                    bot_with_key) "A")) + 2) 20 ∧
       last h = Some (assistant_turn "Hi!").
Proof.
  apply (X5_answer_caps_history (env_answering "Hi!") "A" "again" _ "Hi!").
  - apply wf_run_turns, wf_new_bot.
  - apply gateway_succeeded_intro;
      [apply wf_run_turns, wf_new_bot | reflexivity | | reflexivity].
    vm_compute. reflexivity.
Defined.

(** What a command leaves for the next call to read. *)
Lemma command_step env user_id user_message w :
  wf_world w → is_command user_message = true →
  let w' := (process_message env user_id user_message w).2 in
  wf_world w' ∧ config w' = config w ∧ api_key w' = api_key w ∧
  requests w' = requests w ∧
  history w' user_id =
    if String.eqb (PyStr.lower user_message) "!clear"
    then match conversations w !! user_id with
         | Some _ => Some [seed_message]
         | None => None
         end
    else history w user_id.
Proof.
  intros Hwf Hcmd.
  destruct (process_message_command env user_id user_message w Hcmd)
    as (name & w1 & _ & (Hcfg & Hc & Hh & Hkey & _ & Hr) & Hpm).
  cbn zeta in *. rewrite Hpm. cbn [snd].
  assert (Hwf1 : wf_world w1) by (unfold wf_world; by rewrite Hc, Hh).
  unfold command_effect, cleared, history.
  destruct (String.eqb _ "!clear"); cbn [conversations heap set_message_queue].
  - assert (Hl1 : conversations w1 !! user_id = conversations w !! user_id)
      by (by rewrite Hc).
    destruct (conversations w !! user_id) as [l|] eqn:Hl; rewrite Hl1.
    + cbn [conversations heap config api_key requests set_conversations set_heap].
      rewrite lookup_insert_eq, lookup_app_r by lia. rewrite Nat.sub_diag.
      repeat split; try done. apply wf_set_message_queue. by apply wf_alloc.
    + rewrite Hl1. by repeat split.
  - rewrite Hc, Hh. by repeat split.
Qed.

(** X6: [!clear] forgets: the request for the next chat message of the
    user carries the system seed and that message only, whatever the user
    had said before. *)
Theorem X6_clear_forgets env env' user_id clear_text user_message w :
  wf_world w → PyStr.truthy (api_key w) = true →
  PyStr.lower clear_text = "!clear" → is_command user_message = false →
  requests
    (process_message env' user_id user_message
       (process_message env user_id clear_text w).2).2 =
  requests w ++ [chat_request (config w) [seed_message; user_turn user_message]].
Proof.
  intros Hwf Hkey Hclear Hcmd.
  assert (Hc : is_command clear_text = true).
  { apply command_literal_is_command. rewrite Hclear. by left. }
  destruct (command_step env user_id clear_text w Hwf Hc) as (Hwf1 & Hcfg & Hk & Hr & Hh).
  rewrite Hclear in Hh. cbn [String.eqb Ascii.eqb Bool.eqb andb] in Hh.
  rewrite request_reached; [|done|done|by rewrite Hk].
  rewrite Hr, Hcfg. unfold pending. rewrite Hh.
  by destruct (conversations w !! user_id).
Qed.

Lemma X6_clear_forgets_witness :
  requests
    (process_message (env_answering "Hi!") "A" "What did I say?"
       (process_message (env_answering "Hi!") "A" "!Clear" bot_after_hello).2).2 =
  requests bot_after_hello ++
    [chat_request (config bot_after_hello) [seed_message; user_turn "What did I say?"]].
Proof.
  apply (X6_clear_forgets (env_answering "Hi!") (env_answering "Hi!") "A" "!Clear"
           "What did I say?" bot_after_hello).
  - apply store_inv_process_message, store_inv_new_bot.
  - reflexivity.
  - reflexivity.
  - reflexivity.
Defined.

(** X7: a message whose completion failed is sent again: the request for
    the next chat message of the user carries both user turns in a row. *)
Theorem X7_failed_turn_is_resent env env' user_id first second w e :
  wf_world w →
  gateway_failed env user_id first w e →
  is_command second = false →
  ∃ req,
    requests
      (process_message env' user_id second (process_message env user_id first w).2).2 =
    requests w ++ [req;
      chat_request (config w)
        (default [seed_message] (history w user_id)
           ++ [user_turn first; user_turn second])].
Proof.
  intros Hwf He Hcmd. pose proof He as (req & Hreq & _).
  destruct (request_made env user_id first w Hwf req Hreq) as (Hcmd1 & Hkey & _).
  destruct (process_message_chat env user_id first w Hwf Hcmd1)
    as (name & w' & Hwf' & Hcfg & Hk & Hspec). cbn zeta in Hspec.
  destruct (gateway_failed_outcome env user_id first w Hwf e He) as (w1 & Hpm & _ & Hh).
  assert (Hw' : (process_message env user_id first w).2 = w').
  { rewrite Hkey in Hspec. cbn [negb] in Hspec. destruct Hspec as (_ & Hspec).
    destruct (completion _); by destruct Hspec as (-> & _). }
  rewrite Hpm in Hw', Hreq. cbn [snd] in Hw', Hreq. subst w1.
  exists req. rewrite Hpm. cbn [snd].
  rewrite request_reached; [|done|done|by rewrite Hk].
  rewrite Hreq, Hcfg. unfold pending at 1. rewrite Hh. unfold pending.
  cbn [default from_option id]. by rewrite <- !app_assoc.
Qed.

Lemma X7_failed_turn_is_resent_witness :
  ∃ req,
    requests
      (process_message (env_answering "Hi!") "A" "Anyone?"
         (process_message (env_failing "timeout") "A" "Hello" bot_with_key).2).2 =
    requests bot_with_key ++ [req;
      chat_request (config bot_with_key)
        (default [seed_message] (history bot_with_key "A")
           ++ [user_turn "Hello"; user_turn "Anyone?"])].
Proof.
  apply (X7_failed_turn_is_resent (env_failing "timeout") (env_answering "Hi!") "A"
           "Hello" "Anyone?" bot_with_key (Exception "timeout")).
  - apply wf_new_bot.
  - apply gateway_failed_intro; [apply wf_new_bot | reflexivity..].
  - reflexivity.
Defined.

(** X8: a call sends at most one request.  A request carries the
    configured model, temperature and token limit (gpt-3.5-turbo, 0.7 and
    1000 where the configuration has none) and a history that starts with
    the system seed, ends with the text of the message and holds no other
    system message. *)
Theorem X8_request_shape env user_id user_message w :
  store_inv w →
  requests (process_message env user_id user_message w).2 = requests w ∨
  ∃ t,
    requests (process_message env user_id user_message w).2 =
      requests w ++
        [{| req_model := default (VStr "gpt-3.5-turbo") (config w !! "model");
            req_messages := seed_message :: t ++ [user_turn user_message];
            req_temperature := default (VFloat "0.7") (config w !! "temperature");
            req_max_tokens := default (VInt 1000) (config w !! "max_tokens") |}] ∧
    Forall (λ m, role m ≠ system) t.
Proof.
  intros (Hwf & _ & Hseed).
  destruct (is_command user_message) eqn:Hcmd.
  - left. by destruct (command_step env user_id user_message w Hwf Hcmd)
      as (_ & _ & _ & Hr & _).
  - destruct (PyStr.truthy (api_key w)) eqn:Hkey.
    + right. rewrite request_reached by done. unfold chat_request, pending.
      destruct (history w user_id) as [h|] eqn:Hh.
      * destruct (Hseed user_id h Hh) as (t & -> & Ht). by exists t.
      * by exists [].
    + left. by destruct (no_credential_step env user_id user_message w Hwf Hkey Hcmd)
        as (_ & _ & Hr & _).
Qed.

Lemma X8_request_shape_witness :
  requests (process_message (env_answering "Hi!") "A" "And now?" bot_after_hello).2
    = requests bot_after_hello ∨
  ∃ t,
    requests (process_message (env_answering "Hi!") "A" "And now?" bot_after_hello).2 =
      requests bot_after_hello ++
        [{| req_model := default (VStr "gpt-3.5-turbo") (config bot_after_hello !! "model");
            req_messages := seed_message :: t ++ [user_turn "And now?"];
            req_temperature :=
              default (VFloat "0.7") (config bot_after_hello !! "temperature");
            req_max_tokens :=
              default (VInt 1000) (config bot_after_hello !! "max_tokens") |}] ∧
    Forall (λ m, role m ≠ system) t.
Proof.
  apply (X8_request_shape (env_answering "Hi!") "A" "And now?" bot_after_hello).
  apply store_inv_process_message, store_inv_new_bot.
Defined.

(** ** Edge cases of the webhook *)



(** ** The user directory *)

(** X10: the name of an identifier is stable: a second lookup returns
    the name the first one returned, whether or not the first one recorded
    it and whatever the Twilio environment of either call. *)
Theorem X10_name_is_stable env env' user_id w :
  ∃ name w' w'',
    get_user_name env user_id w = (Ok name, w') ∧
    get_user_name env' user_id w' = (Ok name, w'') ∧
    (is_Some (user_details w' !! user_id) → w'' = w').
Proof.
  destruct (user_details w !! user_id) as [name|] eqn:Hd.
  - exists name, w, w. rewrite !(get_user_name_known _ _ name) by done. by repeat split.
  - destruct (records_name env) eqn:Hrec.
    + eexists _, _, _. split; [by apply get_user_name_recorded|].
      split; [|done]. apply get_user_name_known.
      destruct (file_writable env); cbn; by rewrite lookup_insert_eq.
    + exists (fallback_name user_id), w.
      rewrite (get_user_name_unrecorded env) by done.
      destruct (records_name env') eqn:Hrec'.
      * eexists. split; [done|]. split; [by apply get_user_name_recorded|].
        rewrite Hd. by intros [? ?].
      * exists w. split; [done|]. split; [by apply get_user_name_unrecorded | done].
Qed.

(** Text without the pattern is left as it is. *)
Lemma replace_from_absent (old new s : string) :
  occurs old s = false → PyStr.replace_from old new 0 s = s.
Proof.
  induction s as [|c s IH]; intros Hno; [done|].
  cbn [occurs] in Hno. apply orb_false_elim in Hno as [Hp Hs].
  cbn [PyStr.replace_from]. rewrite Hp. f_equal. by apply IH.
Qed.

(** X11: for a sender of the form "whatsapp:" followed by an address
    that does not itself contain "whatsapp:", the derived name is the
    address; an identifier without "whatsapp:" is its own name. *)
Theorem X11_fallback_name address :
  occurs "whatsapp:" address = false →
  fallback_name ("whatsapp:" +:+ address) = address ∧
  fallback_name address = address.
Proof.
  intros Hno.
  assert (H : fallback_name address = address).
  { unfold fallback_name, PyStr.replace. by apply replace_from_absent. }
  split; [|done]. by rewrite fallback_name_prefix.
Qed.

Lemma X11_fallback_name_witness :
  fallback_name ("whatsapp:" +:+ "+15551234567") = "+15551234567" ∧
  fallback_name "+15551234567" = "+15551234567".
Proof.
  apply (X11_fallback_name "+15551234567").
  reflexivity.
Defined.

(** ** Configuration file *)

(** X12: [load_config] returns what the file holds and leaves it alone;
    when the file is missing or cannot be loaded it returns the defaults
    and, if the file can be written, overwrites it with them.  Loading
    again returns the same configuration. *)
Theorem X12_load_config sys sys' file :
  (∀ cfg, file = JsonFile cfg → load_config sys file = (cfg, file)) ∧
  ((∀ cfg, file ≠ JsonFile cfg) →
     load_config sys file =
       (DEFAULT_CONFIG, if config_writable sys then JsonFile DEFAULT_CONFIG else file)) ∧
  (load_config sys' (load_config sys file).2).1 = (load_config sys file).1.
Proof.
  split; [by intros cfg ->|]. split.
  - intros Hno. destruct file as [| |cfg]; [done | done | by destruct (Hno cfg)].
  - unfold load_config, save_config.
    destruct file as [| |cfg]; [| |done]; by destruct (config_writable sys).
Qed.

(** X13: a model chosen in the GUI survives a restart when the
    configuration file can be written: loading the file gives the
    configuration the bot holds, with the new model.  When the file cannot
    be written the bot holds the change and the file is as it was. *)
Theorem X13_model_is_saved sys sys' choice a :
  config (bot (update_model sys choice a).2) !! "model" = Some (VStr choice) ∧
  if config_writable sys then
    (load_config sys' (config_file (update_model sys choice a).2)).1
      = config (bot (update_model sys choice a).2)
  else
    config_file (update_model sys choice a).2 = config_file a.
Proof.
  unfold update_model, save_config, load_config. run_app.
  rewrite lookup_insert_eq. split; [done|]. by destruct (config_writable sys).
Qed.

Lemma update_api_key_set sys key a :
  key ≠ "" →
  update_api_key sys (Some key) a =
    (Ok tt,
     set_status_var "API key updated"
       (set_api_var (masked key)
          (set_config_file
             (save_config sys (<["api_key" := VStr key]> (config (bot a))) (config_file a))
             (set_bot
                (set_api_key (Some key)
                   (set_config (<["api_key" := VStr key]> (config (bot a))) (bot a)))
                a)))).
Proof. intros Hkey. destruct key; [done|]. reflexivity. Qed.

(** X14: a credential entered in the GUI takes effect at once: it is put
    into the configuration, saved with it when the file can be written, and
    shown masked; the next chat message is sent to the completion service
    instead of being answered with the warning.  A cancelled or empty input
    changes nothing. *)
Theorem X14_new_credential sys sys' env key user_id user_message a :
  wf_world (bot a) → key ≠ "" → is_command user_message = false →
  let a' := (update_api_key sys (Some key) a).2 in
  api_key (bot a') = Some key ∧
  config (bot a') = <["api_key" := VStr key]> (config (bot a)) ∧
  (config_writable sys = true →
     (load_config sys' (config_file a')).1 = config (bot a')) ∧
  api_var a' = masked key ∧
  requests (process_message env user_id user_message (bot a')).2 =
    requests (bot a) ++
      [chat_request (config (bot a')) (pending (bot a) user_id user_message)] ∧
  update_api_key sys None a = (Ok tt, a) ∧
  update_api_key sys (Some "") a = (Ok tt, a).
Proof.
  intros Hwf Hkey Hcmd. cbn zeta. rewrite update_api_key_set by done. cbn [snd].
  run_app. repeat split; try done.
  - intros Hw. unfold save_config, load_config. by rewrite Hw.
  - rewrite request_reached; [done | done | done |].
    cbn. by destruct key.
Qed.

Lemma X14_new_credential_witness :
  api_key (bot (update_api_key sys_plain (Some "sk-12345678") app_first_start).2)
    = Some "sk-12345678" ∧
  api_var (update_api_key sys_plain (Some "sk-12345678") app_first_start).2
    = "sk-1...5678" ∧
  (process_message (env_answering "Hi!") "A" "Hello" (bot app_first_start)).1
    = Ok api_key_warning ∧
  (process_message (env_answering "Hi!") "A" "Hello"
     (bot (update_api_key sys_plain (Some "sk-12345678") app_first_start).2)).1
    = Ok "Hi!" ∧
  requests (process_message (env_answering "Hi!") "A" "Hello"
              (bot (update_api_key sys_plain (Some "sk-12345678") app_first_start).2)).2 =
    requests (bot app_first_start) ++
      [chat_request
         (config (bot (update_api_key sys_plain (Some "sk-12345678") app_first_start).2))
         (pending (bot app_first_start) "A" "Hello")].
Proof.
  pose proof (X14_new_credential sys_plain sys_plain (env_answering "Hi!") "sk-12345678"
                "A" "Hello" app_first_start) as H.
  destruct H as (H1 & _ & _ & H4 & H5 & _); [apply wf_new_bot | done | done |].
  split; [exact H1|]. split; [exact H4|]. split; [reflexivity|].
  split; [reflexivity | exact H5].
Defined.

(** ** Showing the credential *)

Lemma str_take_all n : ∀ s, (str_len s ≤ n)%nat → str_take n s = s.
Proof.
  intros s. revert n. induction s as [|c s IH]; intros n Hlen; [done|].
  cbn [str_len str_take] in *. destruct (is_continuation c).
  - by rewrite IH.
  - destruct n as [|n]; [lia|]. rewrite IH; [done | lia].
Qed.

Lemma str_len_app (s t : string) : str_len (s +:+ t) = (str_len s + str_len t)%nat.
Proof.
  induction s as [|c s IH]; [done|].
  change (str_len (String c (s +:+ t)) = (str_len (String c s) + str_len t)%nat).
  cbn [str_len]. rewrite IH. by destruct (is_continuation c).
Qed.

Lemma str_len_take n : ∀ s, (n ≤ str_len s)%nat → str_len (str_take n s) = n.
Proof.
  intros s. revert n. induction s as [|c s IH]; intros n Hlen; cbn [str_len] in *.
  - cbn. lia.
  - cbn [str_take]. destruct (is_continuation c) eqn:Hc.
    + cbn [str_len]. rewrite Hc. by apply IH.
    + destruct n as [|n]; [done|]. cbn [str_len]. rewrite Hc, IH; [done | lia].
Qed.

Lemma str_len_drop n : ∀ s, str_len (str_drop n s) = (str_len s - n)%nat.
Proof.
  intros s. revert n. induction s as [|c s IH]; intros n; [done|].
  cbn [str_len str_drop]. destruct (is_continuation c) eqn:Hc; [by apply IH|].
  destruct n as [|n]; [|by apply IH]. cbn [str_len]. by rewrite Hc.
Qed.

(** What [str_drop] leaves begins a character. *)
Lemma str_drop_begins n : ∀ s, begins_character (str_drop n s) = true.
Proof.
  intros s. revert n. induction s as [|c s IH]; intros n; [done|].
  cbn [str_drop]. destruct (is_continuation c) eqn:Hc; [by apply IH|].
  destruct n as [|n]; [|by apply IH]. cbn. by rewrite Hc.
Qed.

Lemma str_drop_0 s : begins_character s = true → str_drop 0 s = s.
Proof. destruct s as [|c s]; [done|]. cbn. by intros ->%negb_true_iff. Qed.

(** Taking as many characters as a text has, from that text followed by
    another. *)
Lemma str_take_app (s t : string) :
  begins_character t = true → str_take (str_len s) (s +:+ t) = s.
Proof.
  intros Ht. induction s as [|c s IH].
  - destruct t as [|d t]; [done|]. change (str_take 0 (String d t) = "").
    cbn [str_take]. cbn [begins_character] in Ht. by apply negb_true_iff in Ht as ->.
  - change (str_take (str_len (String c s)) (String c (s +:+ t)) = String c s).
    cbn [str_len str_take]. destruct (is_continuation c); by rewrite IH.
Qed.

Lemma str_drop_app (s t : string) n :
  str_drop (str_len s + n) (s +:+ t) = str_drop n t.
Proof.
  induction s as [|c s IH]; [done|].
  change (str_drop (str_len (String c s) + n) (String c (s +:+ t)) = str_drop n t).
  cbn [str_len str_drop]. by destruct (is_continuation c).
Qed.

(** X15: the masked form of a credential, as the settings tab shows it,
    hides nothing of a short one: a key of at most four characters is shown
    in full, twice.  From eight characters on the masked form has eleven
    characters, the first four and the last four of the key around three
    dots.  Characters are those of the text, of one or several bytes. *)
Theorem X15_masked_credential key :
  begins_character key = true →
  ((str_len key ≤ 4)%nat → masked key = key +:+ "..." +:+ key) ∧
  ((8 ≤ str_len key)%nat →
     str_len (masked key) = 11 ∧
     str_take 4 (masked key) = str_take 4 key ∧
     str_drop 7 (masked key) = str_drop (str_len key - 4) key).
Proof.
  intros Hkey. unfold masked. split.
  - intros Hlen. rewrite str_take_all by done.
    replace (str_len key - 4) with 0 by lia. by rewrite str_drop_0.
  - intros Hlen.
    assert (H4 : str_len (str_take 4 key) = 4) by (apply str_len_take; lia).
    split; [|split].
    + rewrite !str_len_app, H4, str_len_drop. change (str_len "...") with 3. lia.
    + rewrite <- H4 at 1. by apply str_take_app.
    + change 7 with (4 + 3). rewrite <- H4 at 1. rewrite str_drop_app.
      change 3 with (str_len "..." + 0). rewrite str_drop_app.
      apply str_drop_0, str_drop_begins.
Qed.

Lemma X15_masked_credential_witness :
  masked "ключ" = "ключ...ключ" ∧
  str_len (masked "sk-0123456789abcdef") = 11 ∧
  str_take 4 (masked "sk-0123456789abcdef") = "sk-0" ∧
  str_drop 7 (masked "sk-0123456789abcdef") = "cdef".
Proof.
  split.
  - apply (proj1 (X15_masked_credential "ключ" eq_refl)). vm_compute. lia.
  - apply (proj2 (X15_masked_credential "sk-0123456789abcdef" eq_refl)). vm_compute. lia.
Defined.

(** ** Model setting *)

(** X16: a model chosen in the GUI is used from the next message on:
    [!info] reports it and the next request to the completion service
    names it, the other parameters being as before. *)
Theorem X16_model_takes_effect sys env choice user_id info chat a :
  wf_world (bot a) → PyStr.truthy (api_key (bot a)) = true →
  PyStr.lower info = "!info" → is_command chat = false →
  (process_message env user_id info (bot (update_model sys choice a).2)).1 =
    Ok ("Bot Configuration:" +:+ LF +:+
        "- Model: " +:+ choice +:+ LF +:+
        "- Temperature: " +:+ py_str (config (bot a) !! "temperature") +:+ LF +:+
        "- Max tokens: " +:+ py_str (config (bot a) !! "max_tokens")) ∧
  requests (process_message env user_id chat (bot (update_model sys choice a).2)).2 =
    requests (bot a) ++
      [{| req_model := VStr choice;
          req_messages := pending (bot a) user_id chat;
          req_temperature := default (VFloat "0.7") (config (bot a) !! "temperature");
          req_max_tokens := default (VInt 1000) (config (bot a) !! "max_tokens") |}].
Proof.
  intros Hwf Hkey Hinfo Hchat.
  set (w' := bot (update_model sys choice a).2).
  assert (Hw' : w' = set_config (<["model" := VStr choice]> (config (bot a))) (bot a))
    by reflexivity.
  split.
  - assert (Hc : is_command info = true).
    { apply command_literal_is_command. rewrite Hinfo. by right; right. }
    destruct (process_message_command env user_id info w' Hc)
      as (name & w1 & _ & (Hcfg & _) & Hpm). cbn zeta in Hpm.
    rewrite Hpm, Hinfo. cbn [fst]. f_equal.
    unfold command_reply. cbn [String.eqb Ascii.eqb Bool.eqb andb].
    rewrite Hcfg, Hw'. unfold info_text. cbn [config set_config].
    rewrite lookup_insert_eq, !lookup_insert_ne by done. done.
  - rewrite request_reached; [|by rewrite Hw'|done|by rewrite Hw'].
    rewrite Hw'. unfold chat_request. cbn [config set_config requests].
    rewrite lookup_insert_eq, !lookup_insert_ne by done. done.
Qed.

Lemma X16_model_takes_effect_witness :
  (process_message (env_answering "Hi!") "A" "!Info"
     (bot (update_model sys_plain "gpt-4" app_after_hello).2)).1 =
    Ok ("Bot Configuration:" +:+ LF +:+
        "- Model: " +:+ "gpt-4" +:+ LF +:+
        "- Temperature: " +:+ py_str (config (bot app_after_hello) !! "temperature")
          +:+ LF +:+
        "- Max tokens: " +:+ py_str (config (bot app_after_hello) !! "max_tokens")) ∧
  requests (process_message (env_answering "Hi!") "A" "More"
              (bot (update_model sys_plain "gpt-4" app_after_hello).2)).2 =
    requests (bot app_after_hello) ++
      [{| req_model := VStr "gpt-4";
          req_messages := pending (bot app_after_hello) "A" "More";
          req_temperature :=
            default (VFloat "0.7") (config (bot app_after_hello) !! "temperature");
          req_max_tokens :=
            default (VInt 1000) (config (bot app_after_hello) !! "max_tokens") |}].
Proof.
  apply (X16_model_takes_effect sys_plain (env_answering "Hi!") "gpt-4" "A" "!Info" "More"
           app_after_hello).
  - apply store_inv_process_message, store_inv_new_bot.
  - reflexivity.
  - reflexivity.
  - reflexivity.
Defined.

(** ** Server flag *)

(** X17: [start_server] on a stopped server sets [running] exactly when
    the thread could be started, and logs the start or the failure; on a
    running server it returns False and changes nothing.  [stop_server]
    clears the flag and logs once on a running server, whatever becomes of
    the shutdown request, and does nothing on a stopped one. *)
Theorem X17_server_flag sys sys' a :
  running a = false →
  stop_server sys' a = (Ok tt, a) ∧
  match Thread_start sys with
  | None =>
      ∃ a', start_server sys a = (Ok true, a') ∧ running a' = true ∧
        message_queue (bot a') = message_queue (bot a) ++
          ["[INFO] Server started on port " +:+
             py_str (Some (default (VInt 5000) (config (bot a) !! "server_port")))] ∧
        start_server sys' a' = (Ok false, a') ∧
        (import_requests sys' = None →
           ∃ a'', stop_server sys' a' = (Ok tt, a'') ∧ running a'' = false ∧
             message_queue (bot a'') =
               message_queue (bot a') ++ ["[INFO] Server stopped"])
  | Some e =>
      ∃ a', start_server sys a = (Ok false, a') ∧ running a' = false ∧
        message_queue (bot a') = message_queue (bot a) ++
          ["[ERROR] Failed to start server: " +:+ str_exn e]
  end.
Proof.
  intros Hr. unfold start_server, stop_server. run_app. rewrite Hr. cbn [negb].
  split; [done|].
  destruct (Thread_start sys) as [e|]; run_app.
  - eexists. by repeat split.
  - eexists. split; [reflexivity|]. run_app. repeat split; try done.
    intros ->. eexists. by repeat split.
Qed.

Lemma X17_server_flag_witness :
  ∃ a', start_server sys_plain app_first_start = (Ok true, a') ∧ running a' = true ∧
    message_queue (bot a') = message_queue (bot app_first_start) ++
      ["[INFO] Server started on port " +:+
         py_str (Some (default (VInt 5000)
                         (config (bot app_first_start) !! "server_port")))] ∧
    start_server sys_plain a' = (Ok false, a') ∧
    (import_requests sys_plain = None →
       ∃ a'', stop_server sys_plain a' = (Ok tt, a'') ∧ running a'' = false ∧
         message_queue (bot a'') = message_queue (bot a') ++ ["[INFO] Server stopped"]).
Proof.
  exact (proj2 (X17_server_flag sys_plain sys_plain app_first_start eq_refl)).
Defined.

(** ** Conversation view *)

Lemma set_conv_text_twice t t' a :
  set_conv_text t (set_conv_text t' a) = set_conv_text t a.
Proof. done. Qed.

Lemma show_message_seed a : show_message seed_message a = (Ok tt, a).
Proof. done. Qed.

(** Turns are shown one item each, in order. *)
Lemma for_each_show_turns turns : ∀ a,
  Forall (λ m, role m ≠ system) turns →
  for_each show_message turns a =
    (Ok tt, set_conv_text (conv_text a ++ map rendered turns) a).
Proof.
  induction turns as [|m turns IH]; intros a Hall.
  - cbn. rewrite app_nil_r. by destruct a.
  - apply Forall_cons in Hall as [Hm Hall]. cbn [for_each].
    unfold mbind, G_bind. unfold show_message at 1, rendered at 1.
    destruct (role m) eqn:Hrole; [done| |]; unfold update;
      rewrite IH by done; cbn [conv_text set_conv_text map];
      rewrite set_conv_text_twice, <- app_assoc; cbn [app]; by rewrite Hrole.
Qed.

(** X18: the conversation view shows the turns of the stored history in
    order, one item each, labelled "User: " or "Bot: ", never the system
    message, and ends with the clear button.  Showing the conversation of a
    user without history creates the seeded history for that user. *)
Theorem X18_show_conversation env user_id a :
  store_inv (bot a) →
  ∃ a', show_conversation env user_id a = (Ok tt, a') ∧
    conv_text a' =
      map rendered (tail (default [seed_message] (history (bot a) user_id)))
        ++ [ClearButton user_id] ∧
    history (bot a') user_id =
      Some (default [seed_message] (history (bot a) user_id)).
Proof.
  intros (Hwf & _ & Hseed).
  destruct (get_user_name_returns env user_id (bot a))
    as (name & w1 & Hg & (_ & Hc & Hh & _)).
  assert (Hwf1 : wf_world w1) by (unfold wf_world; by rewrite Hc, Hh).
  destruct (get_conversation_history_spec user_id w1 Hwf1)
    as (l & w2 & Hget & Hl & Hitems & _).
  rewrite (history_ext (bot a) w1 user_id Hc Hh) in Hitems.
  set (h := default [seed_message] (history (bot a) user_id)) in *.
  assert (Hs : well_seeded h).
  { subst h. destruct (history (bot a) user_id) as [h0|] eqn:Hh0;
      [by apply (Hseed user_id) | apply well_seeded_seed]. }
  destruct Hs as (t & Ht & Hall).
  unfold show_conversation. run_app. rewrite Hg. run_app. rewrite Hget. run_app.
  unfold read_list. run_app. rewrite Hitems. cbn [default from_option id].
  rewrite Ht. cbn [for_each]. run_app.
  rewrite show_message_seed, for_each_show_turns by done.
  eexists. split; [reflexivity|]. run_app. split; [done|].
  unfold history. by rewrite Hl, Hitems, Ht.
Qed.

Lemma X18_show_conversation_witness :
  ∃ a', show_conversation (env_answering "Hi!") "A" app_after_hello = (Ok tt, a') ∧
    conv_text a' =
      map rendered (tail (default [seed_message] (history (bot app_after_hello) "A")))
        ++ [ClearButton "A"] ∧
    history (bot a') "A" =
      Some (default [seed_message] (history (bot app_after_hello) "A")).
Proof.
  apply (X18_show_conversation (env_answering "Hi!") "A" app_after_hello).
  apply store_inv_process_message, store_inv_new_bot.
Defined.

(** X19: the clear button of the GUI always leaves the user with the
    seeded history and an empty view, also a user who had no history, for
    whom the [!clear] directive creates none. *)
Theorem X19_gui_clear env user_id a :
  ∃ a', gui_clear_conversation env user_id a = (Ok tt, a') ∧
    history (bot a') user_id = Some [seed_message] ∧
    conv_text a' = [ClearButton user_id].
Proof.
  unfold gui_clear_conversation, show_conversation. run_app.
  rewrite clear_conversation_eq. run_app.
  destruct (get_user_name_returns env user_id (cleared (bot a) user_id))
    as (name & w1 & Hg & (_ & Hc & Hh & _)).
  rewrite Hg. run_app.
  assert (Hget : ∃ l w2, get_conversation_history user_id w1 = (Ok l, w2) ∧
            conversations w2 !! user_id = Some l ∧ heap w2 !! l = Some [seed_message]).
  { unfold get_conversation_history. run. rewrite Hc. unfold cleared in *.
    destruct (conversations (bot a) !! user_id) as [l0|] eqn:Hl0.
    - cbn [conversations heap set_conversations set_heap] in *.
      rewrite lookup_insert_eq. eexists _, _. split; [reflexivity|].
      rewrite Hc, Hh, lookup_insert_eq, lookup_app_r by lia.
      by rewrite Nat.sub_diag.
    - rewrite Hl0. run. eexists _, _. split; [reflexivity|]. cbn.
      rewrite lookup_insert_eq, lookup_app_r by lia. by rewrite Nat.sub_diag. }
  destruct Hget as (l & w2 & Hget & Hl & Hitems). rewrite Hget. run_app.
  unfold read_list. run_app. rewrite Hitems. cbn [default from_option id for_each].
  run_app. rewrite show_message_seed. run_app.
  destruct (get_user_name_returns env user_id w2)
    as (name' & w3 & Hg' & (_ & Hc' & Hh' & _)).
  rewrite Hg'. run_app. eexists. split; [reflexivity|]. run_app.
  split; [|done]. unfold history. by rewrite Hc', Hh', Hl, Hitems.
Qed.

(** ** Start-up *)

(** X20: at start-up a credential in the environment wins over the one in
    the configuration file; without it a non-empty credential stored in the
    file is used; and a first start, with neither, leaves the bot without
    credential, with the default configuration, so that a chat message is
    answered with the warning. *)
Theorem X20_start_up sys prior file users :
  (PyStr.truthy (OPENAI_API_KEY sys) = true →
     api_key (init sys prior file users).1 = OPENAI_API_KEY sys) ∧
  (PyStr.truthy (OPENAI_API_KEY sys) = false →
     (∀ cfg key, file = JsonFile cfg → cfg !! "api_key" = Some (VStr key) → key ≠ "" →
        api_key (init sys prior file users).1 = Some key) ∧
     ((∀ cfg, file ≠ JsonFile cfg) →
        api_key (init sys prior file users).1 = prior ∧
        config (init sys prior file users).1 = DEFAULT_CONFIG ∧
        (PyStr.truthy prior = false →
           ∀ env user_id user_message, is_command user_message = false →
             (process_message env user_id user_message (init sys prior file users).1).1
               = Ok api_key_warning))).
Proof.
  split.
  - intros Henv. unfold init. destruct (load_config sys file) as [cfg file'].
    unfold load_api_key. run. cbn [config new_bot].
    destruct (OPENAI_API_KEY sys) as [[|c k]|]; try done.
    cbn [PyStr.truthy negb fmap option_fmap option_map].
    by destruct (cfg !! "api_key").
  - intros Henv. split.
    + intros cfg key -> Hcfg Hkey. unfold init, load_config, load_api_key. run.
      cbn [config new_bot]. rewrite Hcfg, Henv. cbn [negb].
      destruct key; [done|]. reflexivity.
    + intros Hfile.
      assert (Hinit : (init sys prior file users).1 = new_bot DEFAULT_CONFIG prior users).
      { unfold init, load_config, load_api_key.
        destruct file as [| |cfg]; [| |by destruct (Hfile cfg)]; run;
          cbn [config new_bot]; rewrite Henv; reflexivity. }
      rewrite Hinit. split; [done|]. split; [done|].
      intros Hprior env user_id user_message Hcmd.
      destruct (process_message_chat env user_id user_message
                  (new_bot DEFAULT_CONFIG prior users) (wf_new_bot _ _ _) Hcmd)
        as (name & w' & _ & _ & _ & Hspec). cbn zeta in Hspec.
      cbn [api_key new_bot] in Hspec. rewrite Hprior in Hspec. cbn [negb] in Hspec.
      by destruct Hspec as (-> & _).
Qed.

Lemma X20_start_up_witness :
  api_key (init {| OPENAI_API_KEY := Some "sk-env"; config_writable := true;
                   Thread_start := None; import_requests := None |}
             None (JsonFile {[ "api_key" := VStr "sk-file" ]}) None).1 = Some "sk-env" ∧
  api_key (init sys_plain None (JsonFile {[ "api_key" := VStr "sk-file" ]}) None).1
    = Some "sk-file" ∧
  (process_message (env_answering "Hi!") "A" "Hello" (init sys_plain None NoFile None).1).1
    = Ok api_key_warning.
Proof.
  split; [|split].
  - apply (proj1 (X20_start_up
                    {| OPENAI_API_KEY := Some "sk-env"; config_writable := true;
                       Thread_start := None; import_requests := None |}
                    None (JsonFile {[ "api_key" := VStr "sk-file" ]}) None)).
    reflexivity.
  - apply (proj1 (proj2 (X20_start_up sys_plain None
                           (JsonFile {[ "api_key" := VStr "sk-file" ]}) None) eq_refl)
             {[ "api_key" := VStr "sk-file" ]} "sk-file"); [reflexivity | reflexivity | done].
  - apply (proj2 (proj2 (X20_start_up sys_plain None NoFile None) eq_refl)).
    + done.
    + reflexivity.
    + reflexivity.
Defined.

(** ** What inbound messages cannot do, and what a restart keeps *)

Lemma process_message_settings env user_id user_message w :
  wf_world w →
  let w' := (process_message env user_id user_message w).2 in
  wf_world w' ∧ config w' = config w ∧ api_key w' = api_key w.
Proof.
  intros Hwf. destruct (is_command user_message) eqn:Hcmd.
  - by destruct (command_step env user_id user_message w Hwf Hcmd)
      as (Hwf' & Hcfg & Hkey & _).
  - destruct (process_message_chat env user_id user_message w Hwf Hcmd)
      as (name & w' & Hwf' & Hcfg & Hkey & Hspec). cbn zeta in *.
    assert (Hw' : (process_message env user_id user_message w).2 = w').
    { destruct (negb _); [by destruct Hspec as (-> & _)|].
      destruct Hspec as (_ & Hspec).
      destruct (completion _); by destruct Hspec as (-> & _). }
    by rewrite Hw'.
Qed.

(** X21: no sequence of deliveries to the webhook changes the
    configuration or the credential of the bot, whatever the texts, the
    senders and the answers of the outside. *)
Theorem X21_settings_untouched ds : ∀ w,
  wf_world w →
  config (deliver ds w) = config w ∧ api_key (deliver ds w) = api_key w.
Proof.
  induction ds as [|d ds IH]; intros w Hwf; [done|]. cbn [deliver].
  unfold whatsapp_webhook.
  destruct (process_message_settings (delivery_env d) (default "" (delivery_from d))
              (PyStr.strip (default "" (delivery_body d))) w Hwf) as (Hwf' & Hcfg & Hkey).
  destruct (IH _ Hwf') as [-> ->]. by split.
Qed.

Lemma X21_settings_untouched_witness :
  config (deliver
            [ {| delivery_env := env_answering "Hi!"; delivery_body := Some "!info";
                 delivery_from := Some "whatsapp:+15551234567" |};
              {| delivery_env := env_failing "timeout";
                 delivery_body := Some "set model to gpt-4";
                 delivery_from := Some "whatsapp:+15551234567" |} ]
            bot_with_key) = config bot_with_key ∧
  api_key (deliver
             [ {| delivery_env := env_answering "Hi!"; delivery_body := Some "!info";
                  delivery_from := Some "whatsapp:+15551234567" |};
               {| delivery_env := env_failing "timeout";
                  delivery_body := Some "set model to gpt-4";
                  delivery_from := Some "whatsapp:+15551234567" |} ]
             bot_with_key) = api_key bot_with_key.
Proof.
  apply (X21_settings_untouched
           [ {| delivery_env := env_answering "Hi!"; delivery_body := Some "!info";
                delivery_from := Some "whatsapp:+15551234567" |};
             {| delivery_env := env_failing "timeout";
                delivery_body := Some "set model to gpt-4";
                delivery_from := Some "whatsapp:+15551234567" |} ]
           bot_with_key).
  apply wf_new_bot.
Defined.

(** X22: a name recorded while the directory file can be written is
    found again after a restart, also when the Twilio credentials are gone:
    the bot started from the file answers with the recorded name and holds
    the directory as it was when the name was recorded. *)
Theorem X22_directory_survives_restart env env' user_id w cfg key :
  user_details w !! user_id = None →
  records_name env = true → file_writable env = true →
  let w' := (get_user_name env user_id w).2 in
  user_details (new_bot cfg key (user_file w')) = user_details w' ∧
  get_user_name env' user_id (new_bot cfg key (user_file w')) =
    (Ok (fallback_name user_id), new_bot cfg key (user_file w')).
Proof.
  intros Hnone Hrec Hfile. cbn zeta.
  rewrite get_user_name_recorded by done. rewrite Hfile. cbn [snd].
  cbn [user_file set_user_file user_details set_user_details new_bot
       default from_option id].
  split; [done|]. apply get_user_name_known.
  cbn [user_details new_bot default from_option id]. by rewrite lookup_insert_eq.
Qed.

Lemma X22_directory_survives_restart_witness :
  user_details
    (new_bot ∅ None
       (user_file (get_user_name env_twilio "whatsapp:+15551234567" bot_with_key).2)) =
    user_details (get_user_name env_twilio "whatsapp:+15551234567" bot_with_key).2 ∧
  get_user_name (env_answering "Hi!") "whatsapp:+15551234567"
    (new_bot ∅ None
       (user_file (get_user_name env_twilio "whatsapp:+15551234567" bot_with_key).2)) =
    (Ok (fallback_name "whatsapp:+15551234567"),
     new_bot ∅ None
       (user_file (get_user_name env_twilio "whatsapp:+15551234567" bot_with_key).2)).
Proof.
  apply (X22_directory_survives_restart env_twilio (env_answering "Hi!")
           "whatsapp:+15551234567" bot_with_key ∅ None).
  - reflexivity.
  - reflexivity.
  - reflexivity.
Defined.

(** ** The properties without precondition, on sample inputs *)

Lemma X1_store_invariant_witness :
  ∃ t, [seed_message; user_turn "Hello"; assistant_turn "Hi!"] = seed_message :: t ∧
       Forall (λ m, role m ≠ system) t.
Proof.
  apply (proj1 (X1_store_invariant ∅ (Some "sk-test") None
                  [ {| delivery_env := env_answering "Hi!";
                       delivery_body := Some " Hello ";
                       delivery_from := Some "A" |} ]) "A").
  reflexivity.
Defined.

Lemma X10_name_is_stable_witness :
  ∃ name w' w'',
    get_user_name env_twilio "whatsapp:+15551234567" bot_with_key = (Ok name, w') ∧
    get_user_name (env_answering "Hi!") "whatsapp:+15551234567" w' = (Ok name, w'') ∧
    (is_Some (user_details w' !! "whatsapp:+15551234567") → w'' = w').
Proof.
  apply (X10_name_is_stable env_twilio (env_answering "Hi!") "whatsapp:+15551234567"
           bot_with_key).
Defined.

Lemma X12_load_config_witness :
  load_config sys_plain BadFile = (DEFAULT_CONFIG, JsonFile DEFAULT_CONFIG) ∧
  load_config sys_readonly (JsonFile {[ "model" := VStr "gpt-4" ]})
    = ({[ "model" := VStr "gpt-4" ]}, JsonFile {[ "model" := VStr "gpt-4" ]}).
Proof.
  split.
  - apply (proj1 (proj2 (X12_load_config sys_plain sys_plain BadFile))). done.
  - apply (proj1 (X12_load_config sys_readonly sys_plain
                    (JsonFile {[ "model" := VStr "gpt-4" ]}))). done.
Defined.
